(** * Vellaperfumeria storefront: checkout pipeline and quick-view variant selector

    A shallow embedding of
      - [src/components/CheckoutSummaryPage.tsx] (pricing derivation, submit
        handler, order construction, empty-cart view), and
      - [src/components/QuickViewModal.tsx] (default variant selection,
        variant change, add-to-cart emission),
    followed by the properties stated about them.

    Modelling conventions.
      - A JavaScript [number] is an IEEE-754 double.  The pricing
        derivation is embedded twice: on binary64 numbers as the code
        computes it ([Pricing64], over [Double]), and in exact rational
        arithmetic ([Checkout.subtotal] and the two definitions after it,
        over [Q]) for the properties that do not depend on rounding.
        Integer-valued numbers (quantities, order ids, parsed product ids)
        are [Z]; [JS.toDouble] is the double nearest to an integer.
      - A JavaScript string is a [string] of bytes (the UTF-8 encoding of
        its text).
      - An object used as a dictionary ([Record<string, T>]) is a
        [gmap string T]; [undefined]/[null] is [None].
      - React state is an explicit record; a handler is a function from the
        state to the new state and the list of effects it performed. *)

From Stdlib Require Import ZArith QArith Ascii String List DecimalString DecimalPos.
From Stdlib Require Import DecimalFacts SpecFloat.
From stdpp Require Import gmap strings list fin_maps.

Local Open Scope string_scope.
Local Open Scope Z_scope.

(** ** JavaScript primitives used by the two components *)

Module JS.

(** Truthiness of a string: only the empty string is falsy. *)
Definition truthy_string (s : string) : bool :=
  match s with
  | EmptyString => false
  | String _ _ => true
  end.

(** Truthiness of an integer-valued number: only [0] is falsy. *)
Definition truthy_number (n : Z) : bool := negb (n =? 0).

(** [a || b] on strings. *)
Definition or_string (a b : string) : string :=
  if truthy_string a then a else b.

(** [strip_prefix pat s] is [Some rest] when [s = pat ++ rest]. *)
Fixpoint strip_prefix (pat s : string) : option string :=
  match pat with
  | EmptyString => Some s
  | String p pat' =>
      match s with
      | EmptyString => None
      | String c s' =>
          if Ascii.eqb p c then strip_prefix pat' s' else None
      end
  end.

(** [String.prototype.replace(pat, '')] with a string pattern: the first
    occurrence of [pat], wherever it is, is removed; a string without an
    occurrence is returned as it is. *)
Fixpoint replace_first (pat s : string) : string :=
  match strip_prefix pat s with
  | Some rest => rest
  | None =>
      match s with
      | EmptyString => EmptyString
      | String c s' => String c (replace_first pat s')
      end
  end.

(** White space and line terminators of one byte: TAB, LF, VT, FF, CR
    and SP. *)
Definition is_white_space (c : ascii) : bool :=
  let n := nat_of_ascii c in
  ((9 <=? n) && (n <=? 13))%nat || (n =? 32)%nat.

(** U+00A0, encoded as two bytes. *)
Definition is_white_space2 (c1 c2 : ascii) : bool :=
  (nat_of_ascii c1 =? 194)%nat && (nat_of_ascii c2 =? 160)%nat.

(** The white space and line terminators encoded as three bytes: U+1680,
    U+2000 to U+200A, U+2028, U+2029, U+202F, U+205F, U+3000 and
    U+FEFF. *)
Definition is_white_space3 (c1 c2 c3 : ascii) : bool :=
  let n1 := nat_of_ascii c1 in
  let n2 := nat_of_ascii c2 in
  let n3 := nat_of_ascii c3 in
  ((n1 =? 225) && (n2 =? 154) && (n3 =? 128))%nat
  || ((n1 =? 226) && (n2 =? 128)
      && (((128 <=? n3) && (n3 <=? 138)) || (n3 =? 168) || (n3 =? 169)
          || (n3 =? 175)))%nat
  || ((n1 =? 226) && (n2 =? 129) && (n3 =? 159))%nat
  || ((n1 =? 227) && (n2 =? 128) && (n3 =? 128))%nat
  || ((n1 =? 239) && (n2 =? 187) && (n3 =? 191))%nat.

(** Leading white space removed, as [parseInt] does before reading. *)
Fixpoint trim_start (s : string) : string :=
  match s with
  | EmptyString => EmptyString
  | String c1 s1 =>
      if is_white_space c1 then trim_start s1
      else
        match s1 with
        | EmptyString => s
        | String c2 s2 =>
            if is_white_space2 c1 c2 then trim_start s2
            else
              match s2 with
              | EmptyString => s
              | String c3 s3 =>
                  if is_white_space3 c1 c2 c3 then trim_start s3 else s
              end
        end
  end.

(** Value of a character as a digit: [0-9], then [a-z] and [A-Z] from 10. *)
Definition digit_value (c : ascii) : option Z :=
  let n := Z.of_nat (nat_of_ascii c) in
  if (48 <=? n) && (n <=? 57) then Some (n - 48)
  else if (97 <=? n) && (n <=? 122) then Some (n - 87)
  else if (65 <=? n) && (n <=? 90) then Some (n - 55)
  else None.

(** The longest prefix of digits of the radix, read as a number; [acc] is
    [None] as long as no digit was read. *)
Fixpoint parse_digits (radix : Z) (s : string) (acc : option Z) : option Z :=
  match s with
  | EmptyString => acc
  | String c s' =>
      match digit_value c with
      | Some d =>
          if d <? radix
          then parse_digits radix s' (Some (default 0 acc * radix + d))
          else acc
      | None => acc
      end
  end.

(** The value a JavaScript number takes for [Infinity] among the
    integers: 2^1024, the first power of two that no double reaches. *)
Definition infinity : Z := 2 ^ 1024.

(** The double nearest to an integer, ties to the even significand;
    [infinity] (with its sign) when the integer rounds beyond the largest
    double.  Every integer up to 2^53 in magnitude is a double. *)
Definition toDouble (n : Z) : Z :=
  let a := Z.abs n in
  if a <=? 2 ^ 53 then n
  else
    let shift := Z.log2 a - 52 in
    let q := Z.shiftr a shift in
    let r := a - Z.shiftl q shift in
    let half := Z.shiftl 1 (shift - 1) in
    let q' := if (half <? r) || ((r =? half) && Z.odd q) then q + 1 else q in
    let v := Z.shiftl q' shift in
    Z.sgn n * (if infinity <=? v then infinity else v).

(** [parseInt(s)] without a radix argument: leading white space, an
    optional sign, an optional [0x]/[0X] (radix 16), then digits; the
    number read is returned as a double (correctly rounded; ECMAScript
    lets an engine round a decimal of more than 20 significant digits
    less exactly).  [None] is [NaN]; [-0] is not told from [0]. *)
Definition parseInt (s : string) : option Z :=
  let s1 := trim_start s in
  let '(sign, s2) :=
    match s1 with
    | String "-" r => (-1, r)
    | String "+" r => (1, r)
    | _ => (1, s1)
    end in
  let '(radix, s3) :=
    match s2 with
    | String "0" (String "x" r) => (16, r)
    | String "0" (String "X" r) => (16, r)
    | _ => (10, s2)
    end in
  match parse_digits radix s3 None with
  | Some n => Some (toDouble (sign * n))
  | None => None
  end.

(** The decimal digits of an integer, with a minus sign for a negative
    one. *)
Definition decimal (n : Z) : string :=
  NilZero.string_of_int (Z.to_int n).

Definition digit_count (n : Z) : Z := Z.of_nat (String.length (decimal n)).

(** The integer with the fewest significant decimal digits that still
    rounds to the double [x] (for [x] above 2^53): for [k] = 1, 2, ...
    significant digits the multiples of 10^(digits of x - k) on either
    side of [x] are tried; of two that qualify the closer to [x] is
    taken, and the one with the even last digit when they are equally
    close. *)
Fixpoint shortest (fuel : nat) (k : Z) (x : Z) : Z :=
  match fuel with
  | O => x
  | S fuel' =>
      let scale := 10 ^ (digit_count x - k) in
      let lo := x / scale * scale in
      let hi := lo + scale in
      let lo_ok := toDouble lo =? x in
      let hi_ok := toDouble hi =? x in
      if digit_count x <? k then x
      else if lo_ok && hi_ok then
        if x - lo <? hi - x then lo
        else if hi - x <? x - lo then hi
        else if Z.even (lo / scale) then lo else hi
      else if lo_ok then lo
      else if hi_ok then hi
      else shortest fuel' (k + 1) x
  end.

Fixpoint strip_trailing_zeros (s : string) : string :=
  match s with
  | EmptyString => EmptyString
  | String c r =>
      match strip_trailing_zeros r with
      | EmptyString =>
          if Ascii.eqb c "0" then EmptyString else String c EmptyString
      | r' => String c r'
      end
  end.

(** Exponent notation: the significant digits, a point after the first
    when there are more, then [e+] and the exponent. *)
Definition exponential (v : Z) : string :=
  match strip_trailing_zeros (decimal v) with
  | EmptyString => EmptyString
  | String d EmptyString => String d ("e+" ++ decimal (digit_count v - 1))
  | String d rest =>
      String d ("." ++ rest ++ "e+" ++ decimal (digit_count v - 1))
  end.

(** [String(x)], as a template literal interpolates it, for the number
    [x] that holds the integer [n] (the double nearest to it).  Up to
    2^53 these are the decimal digits of [n]; above, the shortest digits
    that still denote [x], followed by zeros up to 21 digits and in
    exponent notation beyond. *)
Definition number_to_string (n : Z) : string :=
  if Z.abs n <=? 2 ^ 53 then decimal n
  else
    let x := toDouble n in
    let a := Z.abs x in
    let body :=
      if infinity <=? a then "Infinity"
      else
        let v := shortest 17 1 a in
        if digit_count v <=? 21 then decimal v else exponential v in
    if x <? 0 then String "-" body else body.

(** Interpolation of a possibly absent string property. *)
Definition interpolate (o : option string) : string :=
  match o with
  | Some s => s
  | None => "undefined"
  end.

End JS.

(** ** Binary64 numbers *)

Module Double.

(** IEEE-754 double precision: 53 bits of significand, infinities at
    exponent 1024; operations round to the nearest double, ties to the
    even significand. *)
Definition prec : Z := 53.
Definition emax : Z := 1024.

Definition zero : spec_float := S754_zero false.

(** [x + y] *)
Definition add (x y : spec_float) : spec_float := SFadd prec emax x y.

(** [x * y] *)
Definition mul (x y : spec_float) : spec_float := SFmul prec emax x y.

(** [x >= y]; false when either is [NaN]. *)
Definition geb (x y : spec_float) : bool := SFleb y x.

(** The double nearest to an integer. *)
Definition of_Z (n : Z) : spec_float := binary_normalize prec emax n 0 false.

(** The double nearest to a rational: what a decimal literal or a JSON
    number becomes. *)
Definition of_Q (q : Q) : spec_float :=
  match Qnum q with
  | Z0 => S754_zero false
  | Zpos n =>
      let '(m, e, l) :=
        SFdiv_core_binary prec emax (Zpos n) 0 (Zpos (Qden q)) 0 in
      binary_round_aux prec emax false m e l
  | Zneg n =>
      let '(m, e, l) :=
        SFdiv_core_binary prec emax (Zpos n) 0 (Zpos (Qden q)) 0 in
      binary_round_aux prec emax true m e l
  end.

(** The exact value of a finite double; 0 for the others. *)
Definition to_Q (x : spec_float) : Q :=
  match x with
  | S754_finite s m e =>
      let magnitude :=
        match e with
        | Z0 => Zpos m # 1
        | Zpos k => (Zpos m * 2 ^ Zpos k) # 1
        | Zneg k => Zpos m # (2 ^ k)
        end in
      if s then Qopp magnitude else magnitude
  | _ => 0%Q
  end.

End Double.

(** ** Data model *)

Module Types.

(** Modelled from the spec: the declarations of [./types] ([Product],
    [CartItem]) are not among the sources; the fields are those the two
    components read, with the types the spec's data model gives them. *)
Record VariantOption := {
  value : string;
  colorCode : option string
}.

Record Product := {
  id : string;
  name : string;
  brand : string;
  price : Q;
  regularPrice : option Q;
  imageUrl : string;
  description : string;
  variants : option (gmap string (list VariantOption));
  isShippingSaver : bool
}.

Record CartItem := {
  cartItemId : string;
  product : Product;
  quantity : Z;
  selectedVariant : option (gmap string string)
}.

End Types.

(** ** The order-creation request and response ([createOrder] of [./api]) *)

Module Billing.
Record t := {
  first_name : string;
  last_name : string;
  address_1 : string;
  city : string;
  postcode : string;
  country : string;
  email : string;
  phone : string
}.
End Billing.

Module Shipping.
Record t := {
  first_name : string;
  last_name : string;
  address_1 : string;
  city : string;
  postcode : string;
  country : string
}.
End Shipping.

Module LineItem.
(** [product_id] is what [parseInt] returned: [None] is [NaN]. *)
Record t := {
  product_id : option Z;
  quantity : Z
}.
End LineItem.

Module Api.

Record OrderData := {
  payment_method : string;
  payment_method_title : string;
  set_paid : bool;
  billing : Billing.t;
  shipping : Shipping.t;
  line_items : list LineItem.t;
  customer_note : string
}.

(** Modelled from the spec: [createOrder] is an opaque call; its response
    is an object that may carry [id] (a number) and [order_key] (a
    string). *)
Record OrderResponse := {
  id : option Z;
  order_key : option string
}.

(** How the awaited call settles: resolved with a response (or with
    [null]/[undefined]), or rejected. *)
Inductive Outcome :=
| Resolved (result : option OrderResponse)
| Rejected.

(** The condition [result && result.id]: when it holds, the [id] and the
    [order_key] the branch reads; [None] when [result] is [null], has no
    [id], or has the falsy id [0]. *)
Definition truthy_id (result : option OrderResponse)
  : option (Z * option string) :=
  match result with
  | Some r =>
      match id r with
      | Some n => if JS.truthy_number n then Some (n, order_key r) else None
      | None => None
      end
  | None => None
  end.

End Api.

(** ** CheckoutSummaryPage *)

Module Checkout.

Definition FREE_SHIPPING_THRESHOLD : Q := 35.
Definition SHIPPING_COST : Q := 6.

(** *** Calculations, in exact arithmetic ([Pricing64] has them on
    doubles) *)

Definition subtotal (cartItems : list Types.CartItem) : Q :=
  fold_left
    (fun total item =>
       (total + Types.price (Types.product item)
                * inject_Z (Types.quantity item))%Q)
    cartItems 0%Q.

Definition shippingCost (cartItems : list Types.CartItem) : Q :=
  let hasShippingSaver :=
    existsb (fun item => Types.isShippingSaver (Types.product item))
            cartItems in
  if hasShippingSaver || Qle_bool FREE_SHIPPING_THRESHOLD (subtotal cartItems)
  then 0%Q else SHIPPING_COST.

Definition total (cartItems : list Types.CartItem) : Q :=
  (subtotal cartItems + shippingCost cartItems)%Q.

(** *** Component state *)

Record ShippingForm := {
  firstName : string;
  lastName : string;
  address : string;
  city : string;
  zip : string;
  phone : string
}.

Record State := {
  isProcessing : bool;
  email : string;
  shipping : ShippingForm
}.

Definition initialState : State :=
  {| isProcessing := false;
     email := "";
     shipping := {| firstName := ""; lastName := ""; address := "";
                    city := ""; zip := ""; phone := "" |} |}.

Definition setIsProcessing (b : bool) (st : State) : State :=
  {| isProcessing := b; email := email st; shipping := shipping st |}.

(** [setEmail(e.target.value)] *)
Definition setEmail (value : string) (st : State) : State :=
  {| isProcessing := isProcessing st; email := value;
     shipping := shipping st |}.

(** [{ ...prev, [name]: value }] on the shipping form.  The six inputs
    wired to [handleInputChange] carry the names of the six fields; any
    other name would add a property that nothing reads, which the record
    has no place for. *)
Definition assignField (name value : string) (prev : ShippingForm)
  : ShippingForm :=
  {| firstName := if String.eqb name "firstName" then value
                  else firstName prev;
     lastName := if String.eqb name "lastName" then value
                 else lastName prev;
     address := if String.eqb name "address" then value else address prev;
     city := if String.eqb name "city" then value else city prev;
     zip := if String.eqb name "zip" then value else zip prev;
     phone := if String.eqb name "phone" then value else phone prev |}.

(** [handleInputChange], given the [name] and [value] of the event's
    target. *)
Definition handleInputChange (name value : string) (st : State) : State :=
  {| isProcessing := isProcessing st; email := email st;
     shipping := assignField name value (shipping st) |}.

(** What a handler does to the outside world, in order. *)
Inductive Effect :=
| PreventDefault
| Alert (message : string)
| CreateOrder (orderData : Api.OrderData)
| ConsoleLog (message : string) (orderId : Z)
| ConsoleError (message : string)
| SetLocationHref (url : string).

(** *** handleFinalizeOrder *)

Definition missingRequired (st : State) : bool :=
  negb (JS.truthy_string (email st))
  || negb (JS.truthy_string (firstName (shipping st)))
  || negb (JS.truthy_string (address (shipping st)))
  || negb (JS.truthy_string (phone (shipping st))).

Definition lineItem (item : Types.CartItem) : LineItem.t :=
  {| LineItem.product_id :=
       JS.parseInt
         (JS.replace_first "sim-"
            (JS.replace_first "wc-" (Types.id (Types.product item))));
     LineItem.quantity := Types.quantity item |}.

Definition orderData (st : State) (cartItems : list Types.CartItem)
  : Api.OrderData :=
  let sh := shipping st in
  {| Api.payment_method := "stripe";
     Api.payment_method_title := "Tarjeta de Crédito / Débito";
     Api.set_paid := false;
     Api.billing :=
       {| Billing.first_name := firstName sh;
          Billing.last_name := JS.or_string (lastName sh) ".";
          Billing.address_1 := address sh;
          Billing.city := city sh;
          Billing.postcode := zip sh;
          Billing.country := "ES";
          Billing.email := email st;
          Billing.phone := phone sh |};
     Api.shipping :=
       {| Shipping.first_name := firstName sh;
          Shipping.last_name := JS.or_string (lastName sh) ".";
          Shipping.address_1 := address sh;
          Shipping.city := city sh;
          Shipping.postcode := zip sh;
          Shipping.country := "ES" |};
     Api.line_items := map lineItem cartItems;
     Api.customer_note :=
       "Pedido realizado desde Vellaperfumeria App (Pink Edition)" |}.

Definition paymentUrl (orderId : Z) (orderKey : option string) : string :=
  "https://vellaperfumeria.com/finalizar-compra/order-pay/"
  ++ JS.number_to_string orderId
  ++ "/?pay_for_order=true&key="
  ++ JS.interpolate orderKey.

Definition softFailure (st : State) : State * list Effect :=
  (setIsProcessing false st,
   [Alert "Error de conexión con la pasarela de pago. Se ha intentado registrar el pedido localmente."]).

Definition transportFailure (st : State) : State * list Effect :=
  (setIsProcessing false st,
   [ConsoleError "Error processing order";
    Alert "Hubo un error al conectar con el banco. Por favor, inténtalo de nuevo."]).

(** The part of the handler after [await createOrder(orderData)]; [st] is
    the state while the call is in flight. *)
Definition settle (outcome : Api.Outcome) (st : State)
  : State * list Effect :=
  match outcome with
  | Api.Resolved result =>
      match Api.truthy_id result with
      | Some (orderId, orderKey) =>
          (st, [ConsoleLog "Pedido creado con éxito:" orderId;
                SetLocationHref (paymentUrl orderId orderKey)])
      | None => softFailure st
      end
  | Api.Rejected => transportFailure st
  end.

(** The whole handler, run to completion against a [createOrder] that
    settles as the given function says. *)
Definition handleFinalizeOrder
    (createOrder : Api.OrderData -> Api.Outcome)
    (cartItems : list Types.CartItem) (st : State)
  : State * list Effect :=
  if missingRequired st then
    (st, [PreventDefault;
          Alert "Por favor, completa los datos de contacto y envío."])
  else
    let st1 := setIsProcessing true st in
    let request := orderData st cartItems in
    let '(st2, effects) := settle (createOrder request) st1 in
    (st2, PreventDefault :: CreateOrder request :: effects).

(** *** The form's events *)

(** What the user can do on the form: type in the email input, type in
    one of the named shipping inputs, submit.  A submission carries the
    way [createOrder] settles for it. *)
Inductive Event :=
| EmailChanged (value : string)
| InputChanged (name value : string)
| FormSubmitted (createOrder : Api.OrderData -> Api.Outcome).

Definition step (cartItems : list Types.CartItem) (event : Event)
    (st : State) : State * list Effect :=
  match event with
  | EmailChanged value => (setEmail value st, [])
  | InputChanged name value => (handleInputChange name value st, [])
  | FormSubmitted createOrder => handleFinalizeOrder createOrder cartItems st
  end.

(** A sequence of events, each handled to completion before the next. *)
Fixpoint run (cartItems : list Types.CartItem) (events : list Event)
    (st : State) : State * list Effect :=
  match events with
  | [] => (st, [])
  | event :: events' =>
      let '(st1, effects1) := step cartItems event st in
      let '(st2, effects2) := run cartItems events' st1 in
      (st2, (effects1 ++ effects2)%list)
  end.

(** *** Rendering *)

Inductive Action :=
| OnNavigate (view : string)
| SubmitForm.

Record Button := {
  label : string;
  disabled : bool;
  onClick : Action
}.

(** The two trees the component returns, reduced to what they show and
    what their controls do.  [shippingShown = None] is the text
    [Gratis]. *)
Inductive View :=
| EmptyCartView (heading : string) (button : Button)
| CheckoutFormView
    (totalShown : string) (itemCount : nat) (shippingShown : option string)
    (emailInput : string) (shippingInputs : ShippingForm)
    (payButton : Button).

Section Render.

(** [Currency] and [formatCurrency] come from [./currency]. *)
Context {Currency : Type}.
Variable formatCurrency : Q -> Currency -> string.

(** The tree returned when the cart is empty. *)
Definition emptyCartView : View :=
  EmptyCartView "Tu carrito está vacío"
    {| label := "Ir a Comprar"; disabled := false;
       onClick := OnNavigate "products" |}.

(** The tree returned otherwise; it shows [total] and the shipping cost. *)
Definition checkoutFormView (cartItems : list Types.CartItem)
    (currency : Currency) (st : State) : View :=
  CheckoutFormView
    (formatCurrency (total cartItems) currency)
    (length cartItems)
    (if Qeq_bool (shippingCost cartItems) 0 then None
     else Some (formatCurrency (shippingCost cartItems) currency))
    (email st) (shipping st)
    {| label := if isProcessing st then "Conectando con el Banco..."
                else "PROCEDER AL PAGO SEGURO";
       disabled := isProcessing st;
       onClick := SubmitForm |}.

(** The component body after the hooks: the empty-cart test comes first. *)
Definition render (cartItems : list Types.CartItem) (currency : Currency)
    (st : State) : View :=
  if (length cartItems =? 0)%nat then emptyCartView
  else checkoutFormView cartItems currency st.

End Render.

End Checkout.

(** ** CheckoutSummaryPage: the calculations on doubles *)

Module Pricing64.

Definition FREE_SHIPPING_THRESHOLD : spec_float := Double.of_Z 35.
Definition SHIPPING_COST : spec_float := Double.of_Z 6.

(** [item.product.price] and [item.quantity] as the numbers JavaScript
    holds. *)
Definition price (item : Types.CartItem) : spec_float :=
  Double.of_Q (Types.price (Types.product item)).

Definition quantity (item : Types.CartItem) : spec_float :=
  Double.of_Z (Types.quantity item).

Definition subtotal (cartItems : list Types.CartItem) : spec_float :=
  fold_left
    (fun total item => Double.add total (Double.mul (price item) (quantity item)))
    cartItems Double.zero.

Definition shippingCost (cartItems : list Types.CartItem) : spec_float :=
  let hasShippingSaver :=
    existsb (fun item => Types.isShippingSaver (Types.product item))
            cartItems in
  if hasShippingSaver
     || Double.geb (subtotal cartItems) FREE_SHIPPING_THRESHOLD
  then Double.zero else SHIPPING_COST.

Definition total (cartItems : list Types.CartItem) : spec_float :=
  Double.add (subtotal cartItems) (shippingCost cartItems).

End Pricing64.

(** ** QuickViewModal *)

Module QuickView.

(** [Object.keys(o)].  JavaScript lists integer-like keys first and the
    others in insertion order; the map lists them in its own order.  What
    the initialization computes does not depend on the order
    ([defaultsFrom_lookup] below holds for every list of keys). *)
Definition objectKeys {A : Type} (o : gmap string A) : list string :=
  (map_to_list o).*1.

(** The body of the [forEach]: [defaults[key]] is assigned only when the
    option sequence of [key] is not empty. *)
Definition assignDefault (variants : gmap string (list Types.VariantOption))
    (defaults : gmap string string) (key : string) : gmap string string :=
  match variants !! key with
  | Some (opt :: _) => <[key := Types.value opt]> defaults
  | _ => defaults
  end.

Definition defaultsFrom (variants : gmap string (list Types.VariantOption))
    (keys : list string) : gmap string string :=
  foldl (assignDefault variants) ∅ keys.

(** The effect that runs when the component mounts and whenever [product]
    changes; the result is the new [selectedVariant] ([None] is [null]). *)
Definition initializeDefaults (product : Types.Product)
  : option (gmap string string) :=
  match Types.variants product with
  | Some variants => Some (defaultsFrom variants (objectKeys variants))
  | None => None
  end.

(** The state change made by the effect: [setSelectedVariant] is given a
    value, not an updater, so the previous selection is not read. *)
Definition onProductChange (prev : option (gmap string string))
    (product : Types.Product) : option (gmap string string) :=
  initializeDefaults product.

(** [setSelectedVariant(prev => ({ ...prev, [type]: value }))]; spreading
    [null] contributes no key. *)
Definition handleVariantChange (prev : option (gmap string string))
    (type value : string) : option (gmap string string) :=
  Some (<[type := value]> (default ∅ prev)).

(** [selectedVariant?.[type]] *)
Definition selected (selectedVariant : option (gmap string string))
    (type : string) : option string :=
  selectedVariant ≫= (.!! type).

(** The arguments of the [onAddToCart] call made by the add-to-cart
    button. *)
Definition addToCartClick {Button : Type} (product : Types.Product)
    (buttonRef : option Button) (selectedVariant : option (gmap string string))
  : Types.Product * option Button * option (gmap string string) :=
  (product, buttonRef, selectedVariant).

(** The option buttons the component renders: one per option of each
    variant type, none when [product.variants] is absent.  Clicking one
    calls [handleVariantChange type opt.value]. *)
Definition offered (product : Types.Product) (type value : string) : Prop :=
  ∃ variants opts opt,
    Types.variants product = Some variants
    ∧ variants !! type = Some opts
    ∧ opt ∈ opts
    ∧ Types.value opt = value.

(** The values [selectedVariant] can hold while [product] is presented,
    once the effect of the last product change has run: the value the
    effect sets, then any number of clicks on rendered option buttons. *)
Inductive reachable (product : Types.Product)
  : option (gmap string string) → Prop :=
| reachable_init :
    reachable product (initializeDefaults product)
| reachable_change s type value :
    reachable product s →
    offered product type value →
    reachable product (handleVariantChange s type value).

(** *** Closing on Escape *)

Section Escape.

(** [Callback] stands for the functions the parent passes as [onClose]. *)
Context {Callback : Type}.

(** A function registered on [document] for [keydown]: its identity (two
    closures are never the same function) and the callbacks it ends up
    calling for a key. *)
Record Listener := {
  listenerId : nat;
  onKey : string -> list Callback
}.

(** The body of [handleKeyDown]. *)
Definition handleKeyDown (onClose : Callback) (key : string)
  : list Callback :=
  if String.eqb key "Escape" then [onClose] else [].

(** The closure an effect run creates. *)
Definition escapeListener (fresh : nat) (onClose : Callback) : Listener :=
  {| listenerId := fresh; onKey := handleKeyDown onClose |}.

Definition sameListener (h l : Listener) : bool :=
  (listenerId l =? listenerId h)%nat.

(** [document.addEventListener('keydown', h)]: a function already
    registered is not registered twice. *)
Definition addEventListener (h : Listener) (listeners : list Listener)
  : list Listener :=
  if existsb (sameListener h) listeners then listeners
  else (listeners ++ [h])%list.

(** [document.removeEventListener('keydown', h)] *)
Definition removeEventListener (h : Listener) (listeners : list Listener)
  : list Listener :=
  List.filter (fun l => negb (sameListener h l)) listeners.

(** A [keydown] event reaching [document]: every listener runs, in
    registration order. *)
Definition dispatchKeyDown (listeners : list Listener) (key : string)
  : list Callback :=
  flat_map (fun l => onKey l key) listeners.

End Escape.

Arguments Listener : clear implicits.

(** *** What is rendered *)

(** One option button of the variants block. *)
Record OptionButton := {
  buttonType : string;
  buttonValue : string;
  swatch : option string;
  highlighted : bool
}.

(** The buttons of one variant type; a button is highlighted when
    [selectedVariant?.[type] === opt.value]. *)
Definition typeButtons (selectedVariant : option (gmap string string))
    (type : string) (opts : list Types.VariantOption) : list OptionButton :=
  map (fun opt =>
         {| buttonType := type;
            buttonValue := Types.value opt;
            swatch := Types.colorCode opt;
            highlighted :=
              bool_decide (selected selectedVariant type
                           = Some (Types.value opt)) |})
      opts.

(** The variants block: nothing without [product.variants], otherwise
    the buttons of every type.  Clicking a button calls
    [handleVariantChange] with its type and value. *)
Definition optionButtons (product : Types.Product)
    (selectedVariant : option (gmap string string)) : list OptionButton :=
  match Types.variants product with
  | Some variants =>
      flat_map
        (fun type =>
           typeButtons selectedVariant type (default [] (variants !! type)))
        (objectKeys variants)
  | None => []
  end.

(** What [{product.regularPrice && product.regularPrice > product.price
    && <span>...</span>}] puts after the price: nothing, the number [0]
    (a falsy number is rendered as text), or the struck-through regular
    price. *)
Inductive RegularPriceSlot :=
| NothingShown
| ZeroShown
| StruckThrough (amount : Q).

Definition regularPriceSlot (product : Types.Product) : RegularPriceSlot :=
  match Types.regularPrice product with
  | None => NothingShown
  | Some regular =>
      if Qeq_bool regular 0 then ZeroShown
      else if negb (Qle_bool regular (Types.price product))
           then StruckThrough regular
           else NothingShown
  end.

End QuickView.

(** ** Specification vocabulary and sample data *)

(** A cart line of a plain product with the given price and quantity. *)
Definition pricedItem (price : Q) (quantity : Z) : Types.CartItem :=
  {| Types.cartItemId := "line";
     Types.product :=
       {| Types.id := "wc-1"; Types.name := "Eau"; Types.brand := "Vella";
          Types.price := price; Types.regularPrice := None;
          Types.imageUrl := ""; Types.description := "";
          Types.variants := None; Types.isShippingSaver := false |};
     Types.quantity := quantity; Types.selectedVariant := None |}.

(** The exact amount of a line whose price is the double JavaScript
    holds. *)
Definition lineAmount64 (item : Types.CartItem) : Q :=
  (Double.to_Q (Pricing64.price item) * inject_Z (Types.quantity item))%Q.

(** The number a string of decimal digits denotes, read after [acc]. *)
Fixpoint decimalValueFrom (acc : Z) (s : string) : Z :=
  match s with
  | EmptyString => acc
  | String c r => decimalValueFrom (acc * 10 + (Z.of_nat (nat_of_ascii c) - 48)) r
  end.




(** The price of one cart line. *)
Definition lineAmount (item : Types.CartItem) : Q :=
  (Types.price (Types.product item) * inject_Z (Types.quantity item))%Q.

(** [Σ f] over a list, as a recursive sum. *)
Fixpoint sumOver {A : Type} (f : A → Q) (l : list A) : Q :=
  match l with
  | [] => 0%Q
  | x :: l' => (f x + sumOver f l')%Q
  end.

(** Some item of the cart has a shipping-saver product. *)
Definition hasSaver (cartItems : list Types.CartItem) : Prop :=
  ∃ item, item ∈ cartItems ∧ Types.isShippingSaver (Types.product item) = true.

(** A state in the middle of a submission, with every field filled. *)
Definition busyState : Checkout.State :=
  {| Checkout.isProcessing := true;
     Checkout.email := "ana@example.com";
     Checkout.shipping :=
       {| Checkout.firstName := "Ana"; Checkout.lastName := "Ruiz";
          Checkout.address := "Calle Mayor 1"; Checkout.city := "Madrid";
          Checkout.zip := "28001"; Checkout.phone := "600000000" |} |}.

(** The handler made the order-creation call. *)
Definition callsCreateOrder (effects : list Checkout.Effect) : Prop :=
  ∃ request, Checkout.CreateOrder request ∈ effects.

(** The handler navigated somewhere. *)
Definition navigates (effects : list Checkout.Effect) : Prop :=
  ∃ url, Checkout.SetLocationHref url ∈ effects.

(** The same form with other values in the fields the gate does not read. *)
Definition withOptionalFields (lastName city zip : string)
    (st : Checkout.State) : Checkout.State :=
  {| Checkout.isProcessing := Checkout.isProcessing st;
     Checkout.email := Checkout.email st;
     Checkout.shipping :=
       {| Checkout.firstName := Checkout.firstName (Checkout.shipping st);
          Checkout.lastName := lastName;
          Checkout.address := Checkout.address (Checkout.shipping st);
          Checkout.city := city;
          Checkout.zip := zip;
          Checkout.phone := Checkout.phone (Checkout.shipping st) |} |}.

(** A resolved response that does not identify an order: [null], an
    object without [id], or the falsy id [0]. *)
Definition lacksOrderId (result : option Api.OrderResponse) : Prop :=
  match result with
  | None => True
  | Some r => Api.id r = None ∨ Api.id r = Some 0
  end.

(** A membership in a short explicit list of effects that cannot hold:
    every element has another constructor. *)
Ltac no_such_effect H :=
  repeat (apply elem_of_cons in H as [H|H]; [discriminate H|]);
  by apply elem_of_nil in H.

(** Removal of a prefix, if the string has it. *)
Definition stripPrefix (prefix s : string) : string :=
  match JS.strip_prefix prefix s with
  | Some rest => rest
  | None => s
  end.

(** The product id as the specification words it: the two prefixes are
    removed if present and the remainder is parsed. *)
Definition prefixStrippedId (id : string) : option Z :=
  JS.parseInt (stripPrefix "sim-" (stripPrefix "wc-" id)).

Definition prefixStrippedLineItem (item : Types.CartItem) : LineItem.t :=
  {| LineItem.product_id := prefixStrippedId (Types.id (Types.product item));
     LineItem.quantity := Types.quantity item |}.

Fixpoint string_forall (p : ascii → bool) (s : string) : bool :=
  match s with
  | EmptyString => true
  | String c s' => p c && string_forall p s'
  end.

Definition is_decimal_digit (c : ascii) : bool :=
  let n := nat_of_ascii c in ((48 <=? n) && (n <=? 57))%nat.

(** A string of decimal digits only. *)
Definition is_decimal (s : string) : bool := string_forall is_decimal_digit s.

(** [s] is the decimal numeral of the natural number [n]: digits only,
    at least one, no leading zero except for the numeral [0]. *)
Definition digitsOf (s : string) (n : Z) : Prop :=
  s ≠ ""
  ∧ is_decimal s = true
  ∧ (s = "0" ∨ ∃ c r, s = String c r ∧ c ≠ "0"%char)
  ∧ decimalValueFrom 0 s = n.

(** [s] is the decimal numeral of the integer [n], with a minus sign in
    front when [n] is negative. *)
Definition decimalNumeralOf (s : string) (n : Z) : Prop :=
  (0 ≤ n ∧ digitsOf s n) ∨ (n < 0 ∧ ∃ r, s = String "-" r ∧ digitsOf r (- n)).

Definition productWithId (id : string) : Types.Product :=
  {| Types.id := id; Types.name := "Eau de Parfum"; Types.brand := "Vella";
     Types.price := 12; Types.regularPrice := None; Types.imageUrl := "";
     Types.description := ""; Types.variants := None;
     Types.isShippingSaver := false |}.

Definition itemWithId (id : string) (quantity : Z) : Types.CartItem :=
  {| Types.cartItemId := "line-1"; Types.product := productWithId id;
     Types.quantity := quantity; Types.selectedVariant := None |}.

(** A form with the four required fields and nothing else. *)
Definition filledState : Checkout.State :=
  {| Checkout.isProcessing := false;
     Checkout.email := "ana@example.com";
     Checkout.shipping :=
       {| Checkout.firstName := "Ana"; Checkout.lastName := "";
          Checkout.address := "Calle Mayor 1"; Checkout.city := "";
          Checkout.zip := ""; Checkout.phone := "600000000" |} |}.

Definition resolvesWithOrder (_ : Api.OrderData) : Api.Outcome :=
  Api.Resolved (Some {| Api.id := Some 123; Api.order_key := Some "abc" |}).

Definition resolvesWithEmptyObject (_ : Api.OrderData) : Api.Outcome :=
  Api.Resolved (Some {| Api.id := None; Api.order_key := None |}).

(** The first option's value of a variant type, if the type has options. *)
Definition firstValue (variants : gmap string (list Types.VariantOption))
    (key : string) : option string :=
  match variants !! key with
  | Some (opt :: _) => Some (Types.value opt)
  | _ => None
  end.

Definition plainOption (value : string) : Types.VariantOption :=
  {| Types.value := value; Types.colorCode := None |}.

Definition productWithVariants
    (variants : option (gmap string (list Types.VariantOption)))
  : Types.Product :=
  {| Types.id := "wc-101"; Types.name := "Eau de Parfum";
     Types.brand := "Vella"; Types.price := 12; Types.regularPrice := None;
     Types.imageUrl := ""; Types.description := "";
     Types.variants := variants; Types.isShippingSaver := false |}.

(** [{A: [a1, a2], B: [b1]}] *)
Definition variantsAB : gmap string (list Types.VariantOption) :=
  <["A" := [plainOption "a1"; plainOption "a2"]]>
    (<["B" := [plainOption "b1"]]> ∅).

(** [{Talla: []}]: a variant type without options. *)
Definition variantsNoOptions : gmap string (list Types.VariantOption) :=
  <["Talla" := []]> ∅.

(** While a product is presented, the selection is null when the product
    has no variant map, and otherwise an object whose keys are the
    variant types with at least one option and whose values are values of
    options of their type. *)
Definition wellFormedFor (product : Types.Product)
    (s : option (gmap string string)) : Prop :=
  match Types.variants product with
  | None => s = None
  | Some variants =>
      ∃ sel,
        s = Some sel
        ∧ (∀ key, is_Some (sel !! key)
                  ↔ ∃ opt opts, variants !! key = Some (opt :: opts))
        ∧ (∀ key value,
             sel !! key = Some value →
             ∃ opts opt, variants !! key = Some opts ∧ opt ∈ opts
                         ∧ Types.value opt = value)
  end.

(** ** Vocabulary for the further properties *)

(** The number a decimal digit sequence denotes when read after [acc]. *)
Fixpoint uint_value (d : Decimal.uint) (acc : Z) : Z :=
  match d with
  | Decimal.Nil => acc
  | Decimal.D0 l => uint_value l (acc * 10 + 0)
  | Decimal.D1 l => uint_value l (acc * 10 + 1)
  | Decimal.D2 l => uint_value l (acc * 10 + 2)
  | Decimal.D3 l => uint_value l (acc * 10 + 3)
  | Decimal.D4 l => uint_value l (acc * 10 + 4)
  | Decimal.D5 l => uint_value l (acc * 10 + 5)
  | Decimal.D6 l => uint_value l (acc * 10 + 6)
  | Decimal.D7 l => uint_value l (acc * 10 + 7)
  | Decimal.D8 l => uint_value l (acc * 10 + 8)
  | Decimal.D9 l => uint_value l (acc * 10 + 9)
  end.

(** What may follow a printed integer without changing what [parseInt]
    reads: nothing, or text that starts with neither a decimal digit nor
    the [x] of a hexadecimal prefix. *)
Definition endsNumber (tail : string) : bool :=
  match tail with
  | EmptyString => true
  | String c _ =>
      negb (is_decimal_digit c) && negb (Ascii.eqb c "x")
      && negb (Ascii.eqb c "X")
  end.

(** The string begins with the prefix that makes [parseInt] read in
    radix 16. *)
Definition startsHex (s : string) : bool :=
  match s with
  | String "0" (String "x" _) => true
  | String "0" (String "X" _) => true
  | _ => false
  end.

(** A character of a printed integer: a decimal digit or the sign. *)
Definition is_number_char (c : ascii) : bool :=
  is_decimal_digit c || Ascii.eqb c "-".

(** A cheap product flagged as shipping saver, as a cart line. *)
Definition saverItem : Types.CartItem :=
  {| Types.cartItemId := "line-9";
     Types.product :=
       {| Types.id := "wc-9"; Types.name := "Miniatura";
          Types.brand := "Vella"; Types.price := 5;
          Types.regularPrice := None; Types.imageUrl := "";
          Types.description := ""; Types.variants := None;
          Types.isShippingSaver := true |};
     Types.quantity := 1; Types.selectedVariant := None |}.

Definition isAlert (effect : Checkout.Effect) : bool :=
  match effect with
  | Checkout.Alert _ => true
  | _ => false
  end.

Definition isNavigation (effect : Checkout.Effect) : bool :=
  match effect with
  | Checkout.SetLocationHref _ => true
  | _ => false
  end.

Definition isCreateOrder (effect : Checkout.Effect) : bool :=
  match effect with
  | Checkout.CreateOrder _ => true
  | _ => false
  end.

(** How many effects of a kind a handler performed. *)
Definition countEffects (kind : Checkout.Effect → bool)
    (effects : list Checkout.Effect) : nat :=
  length (List.filter kind effects).

(** [shipping[name]]: the field of that name, [None] for any other
    name. *)
Definition readField (name : string) (form : Checkout.ShippingForm)
  : option string :=
  if String.eqb name "firstName" then Some (Checkout.firstName form)
  else if String.eqb name "lastName" then Some (Checkout.lastName form)
  else if String.eqb name "address" then Some (Checkout.address form)
  else if String.eqb name "city" then Some (Checkout.city form)
  else if String.eqb name "zip" then Some (Checkout.zip form)
  else if String.eqb name "phone" then Some (Checkout.phone form)
  else None.

(** A session in which the user never types into a required input. *)
Definition leavesRequiredFieldEmpty (events : list Checkout.Event) : Prop :=
  (∀ value, Checkout.EmailChanged value ∉ events)
  ∨ (∀ value, Checkout.InputChanged "firstName" value ∉ events)
  ∨ (∀ value, Checkout.InputChanged "address" value ∉ events)
  ∨ (∀ value, Checkout.InputChanged "phone" value ∉ events).

Definition rejects (_ : Api.OrderData) : Api.Outcome := Api.Rejected.

(** A session that fills the form except for the phone and submits. *)
Definition sessionWithoutPhone : list Checkout.Event :=
  [Checkout.EmailChanged "ana@example.com";
   Checkout.InputChanged "firstName" "Ana";
   Checkout.InputChanged "address" "Calle Mayor 1";
   Checkout.FormSubmitted resolvesWithOrder].

(** A session that fills the four required fields and submits. *)
Definition sessionComplete : list Checkout.Event :=
  [Checkout.EmailChanged "ana@example.com";
   Checkout.InputChanged "firstName" "Ana";
   Checkout.InputChanged "address" "Calle Mayor 1";
   Checkout.InputChanged "phone" "600000000";
   Checkout.FormSubmitted resolvesWithOrder].

(** A listener of another component, already registered on [document]. *)
Definition foreignListener : QuickView.Listener string :=
  {| QuickView.listenerId := 1;
     QuickView.onKey := fun key => ["menu:" ++ key] |}.

(** A product on sale, and one whose regular price is recorded as 0. *)
Definition productWithRegularPrice (regular : option Q) : Types.Product :=
  {| Types.id := "wc-101"; Types.name := "Eau de Parfum";
     Types.brand := "Vella"; Types.price := 12; Types.regularPrice := regular;
     Types.imageUrl := ""; Types.description := "";
     Types.variants := None; Types.isShippingSaver := false |}.

(** * Properties *)

(** ** JavaScript primitives *)

Example parseInt_plain : JS.parseInt "123" = Some 123.
Proof. reflexivity. Qed.

Example parseInt_junk : JS.parseInt "abc" = None.
Proof. reflexivity. Qed.

Example parseInt_tail : JS.parseInt "  -42px" = Some (-42).
Proof. reflexivity. Qed.

Example parseInt_hex : JS.parseInt "0x1F" = Some 31.
Proof. reflexivity. Qed.

Example parseInt_rounds_to_double :
  JS.parseInt "9007199254740993" = Some 9007199254740992.
Proof. by vm_compute. Qed.

Example parseInt_no_break_space :
  JS.parseInt (String (ascii_of_nat 194) (String (ascii_of_nat 160) "12"))
  = Some 12.
Proof. by vm_compute. Qed.

Example parseInt_line_separator :
  JS.parseInt
    (String (ascii_of_nat 226)
       (String (ascii_of_nat 128) (String (ascii_of_nat 168) " 7")))
  = Some 7.
Proof. by vm_compute. Qed.

Example number_to_string_rounded :
  JS.number_to_string 9007199254740993 = "9007199254740992".
Proof. by vm_compute. Qed.

Example number_to_string_shortest :
  JS.number_to_string (2 ^ 69) = "590295810358705700000".
Proof. by vm_compute. Qed.

Example number_to_string_exponent :
  JS.number_to_string (10 ^ 21) = "1e+21"
  ∧ JS.number_to_string 123456789012345678901234567890
    = "1.2345678901234568e+29".
Proof. by vm_compute. Qed.

Example number_to_string_infinity :
  JS.number_to_string (2 ^ 1024) = "Infinity".
Proof. by vm_compute. Qed.

Example replace_first_prefix : JS.replace_first "wc-" "wc-123" = "123".
Proof. reflexivity. Qed.

Example replace_first_inner : JS.replace_first "wc-" "1wc-2wc-3" = "12wc-3".
Proof. reflexivity. Qed.

Example number_to_string_123 : JS.number_to_string 123 = "123".
Proof. reflexivity. Qed.

Example number_to_string_neg : JS.number_to_string (-5) = "-5".
Proof. reflexivity. Qed.

Example number_to_string_0 : JS.number_to_string 0 = "0".
Proof. reflexivity. Qed.

(** ** Pricing derivation *)

Section Pricing.

Import Checkout.



Lemma existsb_saver (cartItems : list Types.CartItem) :
  existsb (fun item => Types.isShippingSaver (Types.product item)) cartItems
  = true ↔ hasSaver cartItems.
Proof.
  unfold hasSaver. rewrite existsb_exists. split.
  - intros (item & Hin & Hs). exists item. split; [|exact Hs].
    by apply list_elem_of_In.
  - intros (item & Hin & Hs). exists item. split; [|exact Hs].
    by apply list_elem_of_In.
Qed.

Lemma shippingCost_free (cartItems : list Types.CartItem) :
  hasSaver cartItems ∨ (FREE_SHIPPING_THRESHOLD <= subtotal cartItems)%Q →
  shippingCost cartItems = 0%Q.
Proof.
  intros H. unfold shippingCost.
  destruct H as [H|H].
  - apply existsb_saver in H. by rewrite H.
  - apply Qle_bool_iff in H. rewrite H. by rewrite orb_true_r.
Qed.


End Pricing.

Section PricingOnDoubles.

Import Pricing64.

Lemma subtotal64_snoc (cartItems : list Types.CartItem)
    (item : Types.CartItem) :
  subtotal (cartItems ++ [item])
  = Double.add (subtotal cartItems)
      (Double.mul (price item) (quantity item)).
Proof. unfold subtotal. by rewrite fold_left_app. Qed.

(** C1, as stated, fails: the code adds doubles, one line after the
    other, so the subtotal is not the exact sum of price times quantity
    and is not even a function of the lines regardless of their order.
    The lines 0.01, 32.01 and 2.98 (quantity 1 each, no shipping saver)
    add up to 35 as decimals, and to a little less than 35 as the exact
    sum of the three doubles; in this order the code computes
    34.99999999999999 and charges 6.00, and with the last two lines
    swapped it computes 35 and charges nothing. *)
Lemma pricing_exact_sum_counterexample :
  let cartA := [pricedItem (1 # 100) 1; pricedItem (3201 # 100) 1;
                pricedItem (298 # 100) 1] in
  let cartB := [pricedItem (1 # 100) 1; pricedItem (298 # 100) 1;
                pricedItem (3201 # 100) 1] in
  cartA ≡ₚ cartB
  ∧ ¬ hasSaver cartA ∧ ¬ hasSaver cartB
  ∧ (sumOver lineAmount cartA == 35)%Q
  ∧ (sumOver lineAmount cartB == 35)%Q
  ∧ (sumOver lineAmount64 cartA < 35)%Q
  ∧ (sumOver lineAmount64 cartB < 35)%Q
  ∧ (Double.to_Q (subtotal cartA) < 35)%Q
  ∧ shippingCost cartA = SHIPPING_COST
  ∧ subtotal cartB = Double.of_Z 35
  ∧ shippingCost cartB = Double.zero.
Proof.
  intros cartA cartB.
  assert (Hno : ∀ cart, cart = cartA ∨ cart = cartB → ¬ hasSaver cart).
  { intros cart Hcart (item & Hin & Hs).
    destruct Hcart as [-> | ->]; subst cartA cartB;
      repeat (apply elem_of_cons in Hin as [-> | Hin];
              [discriminate Hs|]);
      by apply elem_of_nil in Hin. }
  split. { apply perm_skip, perm_swap. }
  split. { apply Hno. by left. }
  split. { apply Hno. by right. }
  repeat split; by vm_compute.
Qed.

(** C1, amended: for every cart the subtotal is the running sum taken
    in double precision in cart order (it starts at 0, and each line
    adds the rounded product of price and quantity with a rounded
    addition); the shipping cost is 0 when some item's product is a
    shipping saver or that computed subtotal is at least 35, and 6.00
    otherwise, so it is always 0 or [SHIPPING_COST]; the total is the
    computed subtotal plus the shipping cost, added as doubles.  (2.9
    and three times 10.7 give the double 34.99999999999999; twice 20
    gives 40 and a total of 40.) *)
Theorem pricing_derivation_binary64 (cartItems : list Types.CartItem) :
  subtotal [] = Double.zero
  ∧ (∀ item,
       subtotal (cartItems ++ [item])
       = Double.add (subtotal cartItems)
           (Double.mul (price item) (quantity item)))
  ∧ (hasSaver cartItems
     ∨ Double.geb (subtotal cartItems) (Double.of_Z 35) = true →
     shippingCost cartItems = Double.zero)
  ∧ (¬ (hasSaver cartItems
        ∨ Double.geb (subtotal cartItems) (Double.of_Z 35) = true) →
     shippingCost cartItems = Double.of_Z 6)
  ∧ (shippingCost cartItems = Double.zero
     ∨ shippingCost cartItems = SHIPPING_COST)
  ∧ total cartItems
    = Double.add (subtotal cartItems) (shippingCost cartItems)
  ∧ subtotal [pricedItem (29 # 10) 1; pricedItem (107 # 10) 3]
    = S754_finite false 4925812092436479 (-47)
  ∧ total [pricedItem 20 2] = S754_finite false 5629499534213120 (-47).
Proof.
  split; [reflexivity|].
  split; [apply subtotal64_snoc|].
  assert (Hcases :
    (hasSaver cartItems
     ∨ Double.geb (subtotal cartItems) (Double.of_Z 35) = true)
    ∧ shippingCost cartItems = Double.zero
    ∨ ¬ (hasSaver cartItems
         ∨ Double.geb (subtotal cartItems) (Double.of_Z 35) = true)
      ∧ shippingCost cartItems = SHIPPING_COST).
  { unfold shippingCost, FREE_SHIPPING_THRESHOLD.
    destruct (existsb
                (fun item => Types.isShippingSaver (Types.product item))
                cartItems) eqn:Hs.
    - left. split; [|done]. left. by apply existsb_saver.
    - destruct (Double.geb (subtotal cartItems) (Double.of_Z 35)) eqn:Hge.
      + left. split; [by right|done].
      + right. split; [|done].
        intros [H|H]; [|discriminate H].
        apply existsb_saver in H. congruence. }
  split; [|split; [|split; [|split; [reflexivity|by vm_compute]]]].
  - intros Hfree. by destruct Hcases as [[_ H]|[H _]].
  - intros Hpaid. by destruct Hcases as [[H _]|[_ H]].
  - destruct Hcases as [[_ H]|[_ H]]; [by left|by right].
Qed.

End PricingOnDoubles.

Example pricing64_over_threshold :
  Pricing64.subtotal [pricedItem 20 2] = Double.of_Z 40
  ∧ Pricing64.shippingCost [pricedItem 20 2] = Double.zero
  ∧ Pricing64.total [pricedItem 20 2] = Double.of_Z 40.
Proof. by vm_compute. Qed.

Example pricing64_under_threshold :
  Pricing64.subtotal [pricedItem 10 1] = Double.of_Z 10
  ∧ Pricing64.shippingCost [pricedItem 10 1] = Double.of_Z 6
  ∧ Pricing64.total [pricedItem 10 1] = Double.of_Z 16.
Proof. by vm_compute. Qed.

Example pricing64_rounding :
  Pricing64.subtotal [pricedItem (29 # 10) 1; pricedItem (107 # 10) 3]
  = S754_finite false 4925812092436479 (-47)
  ∧ Pricing64.shippingCost [pricedItem (29 # 10) 1; pricedItem (107 # 10) 3]
    = Double.of_Z 6.
Proof. by vm_compute. Qed.

Example pricing_over_threshold :
  let cart := [ {| Types.cartItemId := "c1";
                   Types.product :=
                     {| Types.id := "wc-1"; Types.name := "Eau";
                        Types.brand := "Vella"; Types.price := 20;
                        Types.regularPrice := None; Types.imageUrl := "";
                        Types.description := ""; Types.variants := None;
                        Types.isShippingSaver := false |};
                   Types.quantity := 2; Types.selectedVariant := None |} ] in
  Checkout.subtotal cart = 40%Q ∧ Checkout.shippingCost cart = 0%Q
  ∧ Checkout.total cart = 40%Q.
Proof. by vm_compute. Qed.

Example pricing_under_threshold :
  let cart := [ {| Types.cartItemId := "c1";
                   Types.product :=
                     {| Types.id := "wc-1"; Types.name := "Eau";
                        Types.brand := "Vella"; Types.price := 10;
                        Types.regularPrice := None; Types.imageUrl := "";
                        Types.description := ""; Types.variants := None;
                        Types.isShippingSaver := false |};
                   Types.quantity := 1; Types.selectedVariant := None |} ] in
  Checkout.subtotal cart = 10%Q ∧ Checkout.shippingCost cart = 6%Q
  ∧ Checkout.total cart = 16%Q.
Proof. by vm_compute. Qed.

Example pricing_saver :
  let cart := [ {| Types.cartItemId := "c1";
                   Types.product :=
                     {| Types.id := "wc-1"; Types.name := "Eau";
                        Types.brand := "Vella"; Types.price := 5;
                        Types.regularPrice := None; Types.imageUrl := "";
                        Types.description := ""; Types.variants := None;
                        Types.isShippingSaver := true |};
                   Types.quantity := 1; Types.selectedVariant := None |} ] in
  Checkout.subtotal cart = 5%Q ∧ Checkout.shippingCost cart = 0%Q
  ∧ Checkout.total cart = 5%Q.
Proof. by vm_compute. Qed.

(** ** Rendering: the empty cart *)

Section EmptyCart.

Import Checkout.

Context {Currency : Type}.
Variable formatCurrency : Q → Currency → string.

(** C9: with zero items in the cart the component returns the empty-cart
    view, whose single control navigates to the product listing, whatever
    the form fields and the processing flag are; the checkout form is not
    rendered. *)
Theorem empty_cart_short_circuit
    (cartItems : list Types.CartItem) (currency : Currency) (st : State) :
  length cartItems = 0%nat →
  render formatCurrency cartItems currency st
  = EmptyCartView "Tu carrito está vacío"
      {| label := "Ir a Comprar"; disabled := false;
         onClick := OnNavigate "products" |}.
Proof.
  intros Hlen. unfold render. by rewrite Hlen.
Qed.


(** C10: the pricing derivation applied to the empty cart gives subtotal
    0, the flat shipping fee 6.00 (no shipping saver, threshold not met)
    and total 6.00; the form would show that total and that fee, and what
    keeps it from being shown is that the component returns the
    empty-cart view, which has no amount and no submit control. *)
Theorem empty_cart_pricing :
  subtotal [] = 0%Q
  ∧ ¬ hasSaver []
  ∧ ¬ (FREE_SHIPPING_THRESHOLD <= subtotal [])%Q
  ∧ shippingCost [] = SHIPPING_COST
  ∧ SHIPPING_COST = 6%Q
  ∧ total [] = 6%Q
  ∧ ∀ (currency : Currency) (st : State),
      checkoutFormView formatCurrency [] currency st
      = CheckoutFormView
          (formatCurrency 6 currency) 0 (Some (formatCurrency 6 currency))
          (email st) (shipping st)
          {| label := if isProcessing st then "Conectando con el Banco..."
                      else "PROCEDER AL PAGO SEGURO";
             disabled := isProcessing st;
             onClick := SubmitForm |}
      ∧ render formatCurrency [] currency st
        = EmptyCartView "Tu carrito está vacío"
            {| label := "Ir a Comprar"; disabled := false;
               onClick := OnNavigate "products" |}.
Proof.
  split; [reflexivity|].
  split. { intros (item & Hin & _). by apply elem_of_nil in Hin. }
  split. { intros Hle. apply Qle_bool_iff in Hle. discriminate Hle. }
  split; [reflexivity|].
  split; [reflexivity|].
  split; [reflexivity|].
  intros currency st. split; reflexivity.
Qed.

End EmptyCart.

Lemma empty_cart_short_circuit_witness :
  length (@nil Types.CartItem) = 0%nat
  ∧ Checkout.render (fun (_ : Q) (_ : unit) => "6,00") [] tt busyState
    = Checkout.EmptyCartView "Tu carrito está vacío"
        {| Checkout.label := "Ir a Comprar"; Checkout.disabled := false;
           Checkout.onClick := Checkout.OnNavigate "products" |}.
Proof.
  split; [reflexivity|].
  apply (empty_cart_short_circuit (fun (_ : Q) (_ : unit) => "6,00")
           [] tt busyState).
  reflexivity.
Defined.

(** ** Decimal numerals *)

Section DecimalNumerals.

Lemma toDouble_small (n : Z) : Z.abs n ≤ 2 ^ 53 → JS.toDouble n = n.
Proof.
  intros H. unfold JS.toDouble.
  destruct (Z.leb_spec (Z.abs n) (2 ^ 53)); [done|lia].
Qed.

Lemma number_to_string_small (n : Z) :
  Z.abs n ≤ 2 ^ 53 → JS.number_to_string n = JS.decimal n.
Proof.
  intros H. unfold JS.number_to_string.
  destruct (Z.leb_spec (Z.abs n) (2 ^ 53)); [done|lia].
Qed.

Lemma of_uint_acc_value (d : Decimal.uint) (acc : positive) :
  Z.pos (Pos.of_uint_acc d acc) = uint_value d (Z.pos acc).
Proof.
  revert acc. induction d; intros acc; simpl; [done|..];
    rewrite IHd; f_equal; lia.
Qed.

Lemma of_uint_value (d : Decimal.uint) :
  Z.of_N (Pos.of_uint d) = uint_value d 0.
Proof.
  induction d; simpl; [done|exact IHd|..];
    by rewrite of_uint_acc_value.
Qed.

Lemma to_uint_value (p : positive) : uint_value (Pos.to_uint p) 0 = Z.pos p.
Proof. by rewrite <- of_uint_value, DecimalPos.Unsigned.of_to. Qed.

Lemma decimal_pos (p : positive) :
  JS.decimal (Z.pos p) = NilEmpty.string_of_uint (Pos.to_uint p)
  ∧ JS.decimal (Z.neg p)
    = String "-" (NilEmpty.string_of_uint (Pos.to_uint p)).
Proof.
  pose proof (DecimalPos.Unsigned.to_uint_nonnil p) as Hnil.
  unfold JS.decimal. simpl. by destruct (Pos.to_uint p).
Qed.

(** The digits of a positive number do not start with a zero. *)
Lemma to_uint_no_leading_zero (p : positive) (d : Decimal.uint) :
  Pos.to_uint p ≠ Decimal.D0 d.
Proof.
  intros Heq.
  pose proof (DecimalPos.Unsigned.to_of (Pos.to_uint p)) as Hnorm.
  rewrite DecimalPos.Unsigned.of_to in Hnorm. simpl in Hnorm.
  rewrite Heq, DecimalFacts.unorm_D0 in Hnorm.
  destruct (Decimal.nzhead d) as [|u|u|u|u|u|u|u|u|u|u] eqn:Hhead.
  - assert (Hz : Decimal.unorm d = Decimal.zero)
      by (by apply DecimalFacts.unorm_0).
    rewrite Hz in Hnorm. injection Hnorm as ->.
    by apply (DecimalPos.Unsigned.to_uint_nonzero p).
  - by apply (DecimalFacts.nzhead_nonzero d u).
  - rewrite DecimalFacts.unorm_nzhead, Hhead in Hnorm
      by (rewrite Hhead; discriminate); discriminate Hnorm.
  - rewrite DecimalFacts.unorm_nzhead, Hhead in Hnorm
      by (rewrite Hhead; discriminate); discriminate Hnorm.
  - rewrite DecimalFacts.unorm_nzhead, Hhead in Hnorm
      by (rewrite Hhead; discriminate); discriminate Hnorm.
  - rewrite DecimalFacts.unorm_nzhead, Hhead in Hnorm
      by (rewrite Hhead; discriminate); discriminate Hnorm.
  - rewrite DecimalFacts.unorm_nzhead, Hhead in Hnorm
      by (rewrite Hhead; discriminate); discriminate Hnorm.
  - rewrite DecimalFacts.unorm_nzhead, Hhead in Hnorm
      by (rewrite Hhead; discriminate); discriminate Hnorm.
  - rewrite DecimalFacts.unorm_nzhead, Hhead in Hnorm
      by (rewrite Hhead; discriminate); discriminate Hnorm.
  - rewrite DecimalFacts.unorm_nzhead, Hhead in Hnorm
      by (rewrite Hhead; discriminate); discriminate Hnorm.
  - rewrite DecimalFacts.unorm_nzhead, Hhead in Hnorm
      by (rewrite Hhead; discriminate); discriminate Hnorm.
Qed.

Lemma decimalValueFrom_uint (d : Decimal.uint) (acc : Z) :
  decimalValueFrom acc (NilEmpty.string_of_uint d) = uint_value d acc.
Proof.
  revert acc. induction d; intros acc; [done|..]; simpl; by rewrite IHd.
Qed.

Lemma is_decimal_uint (d : Decimal.uint) :
  is_decimal (NilEmpty.string_of_uint d) = true.
Proof. unfold is_decimal. induction d; simpl; done. Qed.

Lemma digitsOf_positive (p : positive) :
  digitsOf (NilEmpty.string_of_uint (Pos.to_uint p)) (Z.pos p).
Proof.
  pose proof (DecimalPos.Unsigned.to_uint_nonnil p) as Hnil.
  pose proof (to_uint_no_leading_zero p) as Hlead.
  split; [|split; [|split]].
  - by destruct (Pos.to_uint p).
  - apply is_decimal_uint.
  - right. destruct (Pos.to_uint p) as [|d|d|d|d|d|d|d|d|d|d];
      [done|by destruct (Hlead d)|..]; eexists _, _; split;
      try reflexivity; discriminate.
  - by rewrite decimalValueFrom_uint, to_uint_value.
Qed.

(** The string printed for an integer of at most 2^53 in magnitude is
    its decimal numeral. *)
Lemma printed_is_numeral (n : Z) :
  Z.abs n ≤ 2 ^ 53 → decimalNumeralOf (JS.number_to_string n) n.
Proof.
  intros Hn. rewrite (number_to_string_small n Hn).
  destruct n as [|p|p].
  - left. split; [done|]. split; [done|]. split; [done|]. split; [|done].
    by left.
  - left. split; [done|]. destruct (decimal_pos p) as [-> _].
    apply digitsOf_positive.
  - right. split; [done|]. destruct (decimal_pos p) as [_ ->].
    eexists. split; [reflexivity|]. apply digitsOf_positive.
Qed.

End DecimalNumerals.

(** ** The submit handler *)

Section Submission.

Import Checkout.

Variable createOrder : Api.OrderData → Api.Outcome.

Lemma truthy_string_spec (s : string) :
  JS.truthy_string s = true ↔ s ≠ "".
Proof. destruct s; simpl; split; intros H; congruence. Qed.

Lemma missingRequired_false (st : State) :
  missingRequired st = false
  ↔ email st ≠ "" ∧ firstName (shipping st) ≠ ""
    ∧ address (shipping st) ≠ "" ∧ phone (shipping st) ≠ "".
Proof.
  unfold missingRequired.
  rewrite !orb_false_iff, !negb_false_iff, !truthy_string_spec.
  tauto.
Qed.

Lemma missingRequired_true (st : State) :
  missingRequired st = true
  ↔ email st = "" ∨ firstName (shipping st) = ""
    ∨ address (shipping st) = "" ∨ phone (shipping st) = "".
Proof.
  unfold missingRequired.
  destruct (email st), (firstName (shipping st)), (address (shipping st)),
    (phone (shipping st)); simpl; split; intros H; try done; try tauto;
    repeat (destruct H as [H|H]; try done).
Qed.

Lemma settle_no_createOrder (outcome : Api.Outcome) (st : State) :
  ¬ callsCreateOrder (settle outcome st).2.
Proof.
  intros [request Hin]. unfold settle, softFailure, transportFailure in Hin.
  destruct outcome as [result|]; [destruct (Api.truthy_id result) as [[n k]|]|];
    simpl in Hin; no_such_effect Hin.
Qed.

Lemma handler_blocked (cartItems : list Types.CartItem) (st : State) :
  missingRequired st = true →
  handleFinalizeOrder createOrder cartItems st
  = (st, [PreventDefault;
          Alert "Por favor, completa los datos de contacto y envío."]).
Proof. intros H. unfold handleFinalizeOrder. by rewrite H. Qed.

Lemma handler_submits (cartItems : list Types.CartItem) (st : State) :
  missingRequired st = false →
  handleFinalizeOrder createOrder cartItems st
  = ((settle (createOrder (orderData st cartItems))
        (setIsProcessing true st)).1,
     PreventDefault :: CreateOrder (orderData st cartItems)
       :: (settle (createOrder (orderData st cartItems))
             (setIsProcessing true st)).2).
Proof.
  intros H. unfold handleFinalizeOrder. rewrite H.
  by destruct (settle _ _).
Qed.

(** C2: the handler calls [createOrder] if and only if email, first name,
    address and phone are all non-empty; when one of them is empty it only
    shows the message and leaves the state as it was (no call, the
    processing flag untouched); the last name, the city and the postal
    code have no say in it. *)
Theorem validation_gate (cartItems : list Types.CartItem) (st : State) :
  (callsCreateOrder (handleFinalizeOrder createOrder cartItems st).2
   ↔ email st ≠ "" ∧ firstName (shipping st) ≠ ""
     ∧ address (shipping st) ≠ "" ∧ phone (shipping st) ≠ "")
  ∧ (email st = "" ∨ firstName (shipping st) = ""
     ∨ address (shipping st) = "" ∨ phone (shipping st) = "" →
     handleFinalizeOrder createOrder cartItems st
     = (st, [PreventDefault;
             Alert "Por favor, completa los datos de contacto y envío."]))
  ∧ (∀ lastName city zip,
       callsCreateOrder
         (handleFinalizeOrder createOrder cartItems
            (withOptionalFields lastName city zip st)).2
       ↔ callsCreateOrder (handleFinalizeOrder createOrder cartItems st).2).
Proof.
  assert (Hiff : ∀ st0,
    callsCreateOrder (handleFinalizeOrder createOrder cartItems st0).2
    ↔ missingRequired st0 = false).
  { intros st0. destruct (missingRequired st0) eqn:Hm.
    - rewrite (handler_blocked _ _ Hm). simpl. split; [|done].
      intros [request Hin]. no_such_effect Hin.
    - rewrite (handler_submits _ _ Hm). simpl. split; [done|].
      intros _. exists (orderData st0 cartItems).
      apply list_elem_of_further, list_elem_of_here. }
  split; [|split].
  - rewrite Hiff. apply missingRequired_false.
  - intros H. apply handler_blocked. by apply missingRequired_true.
  - intros lastName city zip. rewrite !Hiff. done.
Qed.

(** C3: when the call resolves with a response carrying an id and an
    order key, the only place the handler can navigate to is the
    payment-resume URL with the printed id and the key in their places,
    and it does navigate there whenever the success branch is taken (the
    id is truthy); for an id of at most 2^53 in magnitude what is
    printed is the decimal numeral of the id. *)
Theorem success_navigates_to_payment_url
    (cartItems : list Types.CartItem) (st : State)
    (orderId : Z) (orderKey : string) :
  missingRequired st = false →
  createOrder (orderData st cartItems)
  = Api.Resolved (Some {| Api.id := Some orderId;
                          Api.order_key := Some orderKey |}) →
  let url := "https://vellaperfumeria.com/finalizar-compra/order-pay/"
             ++ JS.number_to_string orderId
             ++ "/?pay_for_order=true&key=" ++ orderKey in
  (∀ target,
     SetLocationHref target
       ∈ (handleFinalizeOrder createOrder cartItems st).2 →
     target = url)
  ∧ (orderId ≠ 0 →
     handleFinalizeOrder createOrder cartItems st
     = (setIsProcessing true st,
        [PreventDefault; CreateOrder (orderData st cartItems);
         ConsoleLog "Pedido creado con éxito:" orderId;
         SetLocationHref url]))
  ∧ (Z.abs orderId ≤ 2 ^ 53 →
     ∃ digits,
       decimalNumeralOf digits orderId
       ∧ url = "https://vellaperfumeria.com/finalizar-compra/order-pay/"
               ++ digits ++ "/?pay_for_order=true&key=" ++ orderKey).
Proof.
  intros Hvalid Hcall url.
  split; [|split].
  - rewrite (handler_submits _ _ Hvalid), Hcall.
    unfold settle, Api.truthy_id, JS.truthy_number.
    cbn [Api.id Api.order_key].
    destruct (orderId =? 0); cbn [negb fst snd softFailure].
    + intros target Hin. no_such_effect Hin.
    + intros target Hin.
      apply elem_of_cons in Hin as [Hin|Hin]; [done|].
      apply elem_of_cons in Hin as [Hin|Hin]; [done|].
      apply elem_of_cons in Hin as [Hin|Hin]; [done|].
      apply list_elem_of_singleton in Hin. by inversion Hin.
  - intros Hne. rewrite (handler_submits _ _ Hvalid), Hcall.
    unfold settle, Api.truthy_id, JS.truthy_number.
    cbn [Api.id Api.order_key].
    destruct (Z.eqb_spec orderId 0) as [Hz|_]; [done|]. reflexivity.
  - intros Hsafe. exists (JS.number_to_string orderId).
    split; [by apply printed_is_numeral|reflexivity].
Qed.

Lemma truthy_id_None (result : option Api.OrderResponse) :
  Api.truthy_id result = None ↔ lacksOrderId result.
Proof.
  unfold Api.truthy_id, lacksOrderId, JS.truthy_number.
  destruct result as [[[n|] k]|]; simpl; try tauto.
  destruct (n =? 0) eqn:Hz; simpl.
  - apply Z.eqb_eq in Hz. subst. split; [tauto|done].
  - apply Z.eqb_neq in Hz. split; [done|].
    intros [H|H]; [done|]. by inversion H.
Qed.

(** C4: when the call is rejected, or resolves without an order id, the
    handler ends with [isProcessing] false (so the pay button is enabled
    again), with the email and every shipping field as they were, and
    without navigating. *)
Theorem failure_returns_to_editing
    (cartItems : list Types.CartItem) (st : State) :
  missingRequired st = false →
  (createOrder (orderData st cartItems) = Api.Rejected
   ∨ ∃ result, createOrder (orderData st cartItems) = Api.Resolved result
               ∧ lacksOrderId result) →
  let st' := (handleFinalizeOrder createOrder cartItems st).1 in
  isProcessing st' = false
  ∧ email st' = email st
  ∧ shipping st' = shipping st
  ∧ ¬ navigates (handleFinalizeOrder createOrder cartItems st).2
  ∧ ∀ (Currency : Type) (formatCurrency : Q → Currency → string)
      (currency : Currency) item rest,
      ∃ totalShown shippingShown,
        render formatCurrency (item :: rest) currency st'
        = CheckoutFormView totalShown (S (length rest)) shippingShown
            (email st) (shipping st)
            {| label := "PROCEDER AL PAGO SEGURO"; disabled := false;
               onClick := SubmitForm |}.
Proof.
  intros Hvalid Hout st'. subst st'.
  rewrite (handler_submits _ _ Hvalid).
  assert (Hs : settle (createOrder (orderData st cartItems))
                 (setIsProcessing true st)
               = softFailure (setIsProcessing true st)
               ∨ settle (createOrder (orderData st cartItems))
                   (setIsProcessing true st)
                 = transportFailure (setIsProcessing true st)).
  { destruct Hout as [Hr|(result & Hr & Hno)]; rewrite Hr; simpl.
    - by right.
    - apply truthy_id_None in Hno. rewrite Hno. by left. }
  destruct Hs as [Hs|Hs]; rewrite Hs; simpl;
    (split; [reflexivity|]); (split; [reflexivity|]);
    (split; [reflexivity|]);
    (split; [intros [url Hin]; no_such_effect Hin|]);
    intros Currency formatCurrency currency item rest;
    unfold render; simpl; eauto.
Qed.

End Submission.

(** ** Order construction *)

Section OrderConstruction.

Import Checkout.

Lemma strip_prefix_other_head (p : ascii → bool) (c : ascii)
    (pat s : string) :
  p c = false → string_forall p s = true →
  JS.strip_prefix (String c pat) s = None.
Proof.
  intros Hc Hs. destruct s as [|d s']; [reflexivity|]. simpl in *.
  apply andb_true_iff in Hs as [Hd _].
  destruct (Ascii.eqb c d) eqn:He; [|reflexivity].
  apply Ascii.eqb_eq in He. subst d. congruence.
Qed.

Lemma replace_first_other_head (p : ascii → bool) (c : ascii)
    (pat s : string) :
  p c = false → string_forall p s = true →
  JS.replace_first (String c pat) s = s.
Proof.
  intros Hc. induction s as [|d s' IH]; intros Hs.
  - reflexivity.
  - cbn [JS.replace_first].
    rewrite (strip_prefix_other_head p c pat (String d s') Hc Hs).
    simpl in Hs. apply andb_true_iff in Hs as [_ Hs].
    by rewrite IH.
Qed.

Lemma replace_first_decimal_wc (digits : string) :
  is_decimal digits = true → JS.replace_first "wc-" digits = digits.
Proof. by apply (replace_first_other_head is_decimal_digit). Qed.

Lemma replace_first_decimal_sim (digits : string) :
  is_decimal digits = true → JS.replace_first "sim-" digits = digits.
Proof. by apply (replace_first_other_head is_decimal_digit). Qed.

Lemma stripPrefix_decimal_wc (digits : string) :
  is_decimal digits = true → stripPrefix "wc-" digits = digits.
Proof.
  intros H. unfold stripPrefix.
  by rewrite (strip_prefix_other_head is_decimal_digit "w" "c-" digits).
Qed.

Lemma stripPrefix_decimal_sim (digits : string) :
  is_decimal digits = true → stripPrefix "sim-" digits = digits.
Proof.
  intros H. unfold stripPrefix.
  by rewrite (strip_prefix_other_head is_decimal_digit "s" "im-" digits).
Qed.

(** On identifiers of the catalogue's three shapes the first-occurrence
    removal of the code and the removal of prefixes agree. *)
Lemma lineItem_catalogue_id (item : Types.CartItem) (digits : string) :
  is_decimal digits = true →
  Types.id (Types.product item) = digits
  ∨ Types.id (Types.product item) = "wc-" ++ digits
  ∨ Types.id (Types.product item) = "sim-" ++ digits →
  LineItem.product_id (lineItem item) = JS.parseInt digits
  ∧ lineItem item = prefixStrippedLineItem item.
Proof.
  intros Hd Hid. unfold lineItem, prefixStrippedLineItem, prefixStrippedId.
  destruct Hid as [->|[->| ->]]; cbn [LineItem.product_id].
  - rewrite (replace_first_decimal_wc _ Hd), (replace_first_decimal_sim _ Hd).
    rewrite (stripPrefix_decimal_wc _ Hd), (stripPrefix_decimal_sim _ Hd).
    done.
  - change (JS.replace_first "wc-" ("wc-" ++ digits)) with digits.
    change (stripPrefix "wc-" ("wc-" ++ digits)) with digits.
    rewrite (replace_first_decimal_sim _ Hd), (stripPrefix_decimal_sim _ Hd).
    done.
  - change (stripPrefix "wc-" ("sim-" ++ digits)) with ("sim-" ++ digits).
    change (stripPrefix "sim-" ("sim-" ++ digits)) with digits.
    change (JS.replace_first "wc-" ("sim-" ++ digits))
      with ("sim-" ++ JS.replace_first "wc-" digits).
    rewrite (replace_first_decimal_wc _ Hd).
    change (JS.replace_first "sim-" ("sim-" ++ digits)) with digits.
    done.
Qed.

(** C5, as stated, fails: the code removes the first occurrence of each
    marker wherever it stands, not only a prefix.  For the product id
    [1wc-2] the request carries product id 12, while removing prefixes
    leaves [1wc-2], which parses to 1. *)
Lemma order_request_prefix_counterexample :
  Api.line_items (orderData filledState [itemWithId "1wc-2" 1])
  = [ {| LineItem.product_id := Some 12; LineItem.quantity := 1 |} ]
  ∧ map prefixStrippedLineItem [itemWithId "1wc-2" 1]
    = [ {| LineItem.product_id := Some 1; LineItem.quantity := 1 |} ]
  ∧ Api.line_items (orderData filledState [itemWithId "1wc-2" 1])
    ≠ map prefixStrippedLineItem [itemWithId "1wc-2" 1].
Proof.
  split; [reflexivity|]. split; [reflexivity|].
  intros H. discriminate H.
Qed.

(** C5, amended: the request is a function of the form and the cart
    with country [ES] in both blocks, the last name or the placeholder
    [.] in both blocks, [set_paid] false, and one line item per cart item
    in order, whose product id is [parseInt] of the id string after the
    first occurrence of [wc-] and then the first occurrence of [sim-] were
    removed, and whose quantity is the item's; when every id in the cart
    is made of decimal digits, with or without one of the two prefixes,
    this is the removal of prefixes. *)
Theorem order_request_projection
    (st : State) (cartItems : list Types.CartItem) :
  let request := orderData st cartItems in
  Billing.country (Api.billing request) = "ES"
  ∧ Shipping.country (Api.shipping request) = "ES"
  ∧ (lastName (shipping st) ≠ "" →
     Billing.last_name (Api.billing request) = lastName (shipping st)
     ∧ Shipping.last_name (Api.shipping request) = lastName (shipping st))
  ∧ (lastName (shipping st) = "" →
     Billing.last_name (Api.billing request) = "."
     ∧ Shipping.last_name (Api.shipping request) = ".")
  ∧ Api.set_paid request = false
  ∧ Api.line_items request
    = map (fun item =>
             {| LineItem.product_id :=
                  JS.parseInt
                    (JS.replace_first "sim-"
                       (JS.replace_first "wc-"
                          (Types.id (Types.product item))));
                LineItem.quantity := Types.quantity item |})
          cartItems
  ∧ ((∀ item, item ∈ cartItems →
        ∃ digits,
          is_decimal digits = true
          ∧ (Types.id (Types.product item) = digits
             ∨ Types.id (Types.product item) = "wc-" ++ digits
             ∨ Types.id (Types.product item) = "sim-" ++ digits)) →
     Api.line_items request = map prefixStrippedLineItem cartItems).
Proof.
  simpl. split; [reflexivity|]. split; [reflexivity|].
  split.
  { intros Hne. unfold JS.or_string.
    destruct (lastName (shipping st)); [done|]. by simpl. }
  split.
  { intros ->. by simpl. }
  split; [reflexivity|]. split; [reflexivity|].
  induction cartItems as [|item rest IH]; intros Hall; [reflexivity|].
  cbn [map]. f_equal.
  - destruct (Hall item) as (digits & Hd & Hid); [apply list_elem_of_here|].
    apply (lineItem_catalogue_id item digits Hd Hid).
  - apply IH. intros item' Hin. apply Hall. by apply list_elem_of_further.
Qed.

End OrderConstruction.

Example order_request_sample :
  Api.line_items
    (Checkout.orderData filledState
       [itemWithId "wc-101" 2; itemWithId "sim-7" 1; itemWithId "55" 3])
  = [ {| LineItem.product_id := Some 101; LineItem.quantity := 2 |};
      {| LineItem.product_id := Some 7; LineItem.quantity := 1 |};
      {| LineItem.product_id := Some 55; LineItem.quantity := 3 |} ].
Proof. reflexivity. Qed.

Example order_request_not_a_number :
  Api.line_items (Checkout.orderData filledState [itemWithId "gift" 1])
  = [ {| LineItem.product_id := None; LineItem.quantity := 1 |} ].
Proof. reflexivity. Qed.

Example gate_ignores_optional_fields :
  Checkout.lastName (Checkout.shipping filledState) = ""
  ∧ Checkout.city (Checkout.shipping filledState) = ""
  ∧ Checkout.zip (Checkout.shipping filledState) = ""
  ∧ callsCreateOrder
      (Checkout.handleFinalizeOrder resolvesWithOrder
         [itemWithId "wc-101" 2] filledState).2.
Proof.
  repeat (split; [reflexivity|]).
  eexists. apply list_elem_of_further, list_elem_of_here.
Qed.

Lemma success_navigates_to_payment_url_witness :
  Checkout.handleFinalizeOrder resolvesWithOrder
    [itemWithId "wc-101" 2] filledState
  = (Checkout.setIsProcessing true filledState,
     [Checkout.PreventDefault;
      Checkout.CreateOrder
        (Checkout.orderData filledState [itemWithId "wc-101" 2]);
      Checkout.ConsoleLog "Pedido creado con éxito:" 123;
      Checkout.SetLocationHref
        "https://vellaperfumeria.com/finalizar-compra/order-pay/123/?pay_for_order=true&key=abc"]).
Proof.
  refine (proj1 (proj2 (success_navigates_to_payment_url resolvesWithOrder
                          [itemWithId "wc-101" 2] filledState 123 "abc"
                          _ _)) _).
  - reflexivity.
  - reflexivity.
  - discriminate.
Defined.

Lemma failure_returns_to_editing_witness :
  let run := Checkout.handleFinalizeOrder resolvesWithEmptyObject
               [itemWithId "wc-101" 2] filledState in
  Checkout.isProcessing run.1 = false
  ∧ Checkout.email run.1 = Checkout.email filledState
  ∧ Checkout.shipping run.1 = Checkout.shipping filledState
  ∧ ¬ navigates run.2.
Proof.
  destruct (failure_returns_to_editing resolvesWithEmptyObject
              [itemWithId "wc-101" 2] filledState)
    as (H1 & H2 & H3 & H4 & _).
  - reflexivity.
  - right. eexists. split; [reflexivity|]. simpl. by left.
  - repeat split; assumption.
Defined.

(** ** Quick view: the variant selection *)

Section VariantSelection.

Import QuickView.

Implicit Types (variants : gmap string (list Types.VariantOption))
  (sel defaults : gmap string string) (key type value : string).

Lemma assignDefault_lookup variants defaults key key' :
  assignDefault variants defaults key !! key'
  = if decide (key = key')
    then match firstValue variants key with
         | Some v => Some v
         | None => defaults !! key'
         end
    else defaults !! key'.
Proof.
  unfold assignDefault, firstValue.
  destruct (variants !! key) as [[|opt opts]|] eqn:Hv;
    case_decide; subst; try done.
  - apply lookup_insert_eq.
  - by apply lookup_insert_ne.
Qed.

Lemma foldl_assignDefault_lookup variants (keys : list string) defaults key :
  foldl (assignDefault variants) defaults keys !! key
  = match (if decide (key ∈ keys) then firstValue variants key else None) with
    | Some v => Some v
    | None => defaults !! key
    end.
Proof.
  revert defaults. induction keys as [|k keys IH]; intros defaults;
    cbn [foldl].
  - destruct (decide (key ∈ [])) as [Hin|_]; [|done].
    by apply elem_of_nil in Hin.
  - rewrite IH, assignDefault_lookup.
    destruct (decide (key ∈ keys)) as [Hin|Hnin].
    + rewrite (decide_True (P := key ∈ k :: keys))
        by (by apply list_elem_of_further).
      destruct (firstValue variants key) as [v|] eqn:Hf; [done|].
      case_decide as Hk; [subst k; by rewrite Hf|done].
    + destruct (decide (k = key)) as [->|Hne].
      * rewrite (decide_True (P := key ∈ key :: keys))
          by apply list_elem_of_here.
        by destruct (firstValue variants key).
      * rewrite (decide_False (P := key ∈ k :: keys)); [done|].
        intros [?|?]%elem_of_cons; by subst.
Qed.

(** Whatever the order of the keys, the loop yields the first value of
    every listed key that has options, and nothing else. *)
Lemma defaultsFrom_lookup variants (keys : list string) key :
  defaultsFrom variants keys !! key
  = if decide (key ∈ keys) then firstValue variants key else None.
Proof.
  unfold defaultsFrom. rewrite foldl_assignDefault_lookup, lookup_empty.
  by destruct (if decide (key ∈ keys) then _ else _).
Qed.

Lemma elem_of_objectKeys {A : Type} (o : gmap string A) key :
  key ∈ objectKeys o ↔ is_Some (o !! key).
Proof.
  unfold objectKeys. rewrite list_elem_of_fmap. split.
  - intros ([k x] & -> & Hin). apply elem_of_map_to_list in Hin.
    by exists x.
  - intros [x Hx]. exists (key, x). split; [done|].
    by apply elem_of_map_to_list.
Qed.

Lemma defaults_lookup variants key :
  defaultsFrom variants (objectKeys variants) !! key = firstValue variants key.
Proof.
  rewrite defaultsFrom_lookup. case_decide as Hin; [done|].
  unfold firstValue. destruct (variants !! key) as [opts|] eqn:Hv; [|done].
  exfalso. apply Hin, elem_of_objectKeys. by exists opts.
Qed.

(** C6, as stated, fails: a variant type whose option sequence is empty
    is a key of the variant map, and the initialization gives it no
    value.  For [{Talla: []}] the selection is the empty object. *)
Lemma default_selection_counterexample :
  Types.variants (productWithVariants (Some variantsNoOptions))
  = Some variantsNoOptions
  ∧ variantsNoOptions !! "Talla" = Some []
  ∧ initializeDefaults (productWithVariants (Some variantsNoOptions))
    = Some ∅
  ∧ selected
      (initializeDefaults (productWithVariants (Some variantsNoOptions)))
      "Talla" = None.
Proof. vm_compute. repeat split; reflexivity. Qed.

(** C6, amended: after the effect has run for a product with variants,
    the selection maps every variant type that has at least one option to
    the value of its first option and has no other key (a type with an
    empty option sequence gets no value; nothing of a previous selection
    remains); for [{A: [a1, a2], B: [b1]}] it is exactly
    [{A: a1, B: b1}]; for a product without variants it is null. *)
Theorem default_selection
    (prev : option (gmap string string)) (product : Types.Product) :
  match Types.variants product with
  | Some variants =>
      ∃ sel,
        onProductChange prev product = Some sel
        ∧ (∀ key opt opts,
             variants !! key = Some (opt :: opts) →
             sel !! key = Some (Types.value opt))
        ∧ (∀ key, variants !! key = Some [] → sel !! key = None)
        ∧ (∀ key, variants !! key = None → sel !! key = None)
  | None => onProductChange prev product = None
  end
  ∧ onProductChange prev (productWithVariants (Some variantsAB))
    = Some (<["A" := "a1"]> (<["B" := "b1"]> ∅)).
Proof.
  split; [|by vm_compute].
  unfold onProductChange, initializeDefaults.
  destruct (Types.variants product) as [variants|]; [|done].
  eexists. split; [done|].
  repeat split; intros key; intros; rewrite defaults_lookup;
    unfold firstValue; by simplify_option_eq.
Qed.

(** C7: a variant change sets the given type to the given value and
    leaves every other type as it was; [B: b1] after [A: a2] gives
    [{A: a2, B: b1}]; choosing again the value a type already has leaves
    the selection equal to what it was. *)
Theorem variant_change_merges
    (prev : option (gmap string string)) (type value : string) :
  selected (handleVariantChange prev type value) type = Some value
  ∧ (∀ other, other ≠ type →
       selected (handleVariantChange prev type value) other
       = selected prev other)
  ∧ (selected prev type = Some value →
     handleVariantChange prev type value = prev)
  ∧ handleVariantChange (handleVariantChange prev type value) type value
    = handleVariantChange prev type value
  ∧ handleVariantChange
      (handleVariantChange
         (initializeDefaults (productWithVariants (Some variantsAB)))
         "A" "a2")
      "B" "b1"
    = Some (<["A" := "a2"]> (<["B" := "b1"]> ∅)).
Proof.
  unfold handleVariantChange, selected.
  split; [|split; [|split; [|split]]].
  - simpl. apply lookup_insert_eq.
  - intros other Hne. simpl. rewrite lookup_insert_ne by done.
    destruct prev; simpl; [done|apply lookup_empty].
  - destruct prev as [sel|]; simpl; [|done].
    intros Hsel. f_equal. by apply insert_id.
  - simpl. f_equal. apply insert_insert_eq.
  - by vm_compute.
Qed.

End VariantSelection.

(** ** Quick view: what the add-to-cart button emits *)

Section AddToCart.

Import QuickView.

Implicit Types (variants : gmap string (list Types.VariantOption))
  (sel : gmap string string) (key type value : string).

Lemma firstValue_is_Some variants key :
  is_Some (firstValue variants key)
  ↔ ∃ opt opts, variants !! key = Some (opt :: opts).
Proof.
  unfold firstValue. destruct (variants !! key) as [[|opt opts]|]; split.
  - by intros [? ?].
  - by intros (? & ? & ?).
  - eauto.
  - eauto.
  - by intros [? ?].
  - by intros (? & ? & ?).
Qed.

Lemma reachable_wellFormed (product : Types.Product)
    (s : option (gmap string string)) :
  reachable product s → wellFormedFor product s.
Proof.
  induction 1 as [|s type value Hreach IH Hoff]; unfold wellFormedFor in *.
  - unfold initializeDefaults.
    destruct (Types.variants product) as [variants|]; [|done].
    eexists. split; [done|]. split.
    + intros key. rewrite defaults_lookup. apply firstValue_is_Some.
    + intros key value. rewrite defaults_lookup. unfold firstValue.
      destruct (variants !! key) as [[|opt opts]|]; try done.
      intros [= <-]. exists (opt :: opts), opt.
      split; [done|]. split; [apply list_elem_of_here|done].
  - destruct Hoff as (variants & opts & opt & Hv & Hk & Hin & Hval).
    rewrite Hv in IH |- *. destruct IH as (sel & -> & Hdom & Hvals).
    unfold handleVariantChange. simpl.
    eexists. split; [done|]. split.
    + intros key. destruct (decide (type = key)) as [<-|Hne].
      * rewrite lookup_insert_eq. split; [intros _|by eauto].
        destruct opts as [|o os]; [by apply elem_of_nil in Hin|eauto].
      * rewrite lookup_insert_ne by done. apply Hdom.
    + intros key v. destruct (decide (type = key)) as [<-|Hne].
      * rewrite lookup_insert_eq. intros [= <-]. eauto.
      * rewrite lookup_insert_ne by done. apply Hvals.
Qed.

(** C8, as stated, fails: a product whose variant map is present but
    offers no option (the empty object, or a type with an empty option
    sequence) makes the button emit an empty, present selection. *)
Lemma add_to_cart_empty_selection_counterexample :
  Types.variants (productWithVariants (Some variantsNoOptions)) ≠ None
  ∧ reachable (productWithVariants (Some variantsNoOptions)) (Some ∅)
  ∧ (addToCartClick (productWithVariants (Some variantsNoOptions))
       (@None unit) (Some ∅)).2 = Some ∅
  ∧ Types.variants (productWithVariants (Some ∅)) ≠ None
  ∧ reachable (productWithVariants (Some ∅)) (Some ∅)
  ∧ (addToCartClick (productWithVariants (Some ∅))
       (@None unit) (Some ∅)).2 = Some ∅.
Proof.
  split; [done|]. split.
  { replace (Some (∅ : gmap string string))
      with (initializeDefaults (productWithVariants (Some variantsNoOptions)))
      by (by vm_compute).
    constructor. }
  split; [done|]. split; [done|]. split; [|done].
  replace (Some (∅ : gmap string string))
    with (initializeDefaults (productWithVariants (Some ∅)))
    by (by vm_compute).
  constructor.
Qed.

(** C8, amended: the selection the add-to-cart button emits is null when
    the product has no variant map; when the map is present it is a
    present mapping whose keys are exactly the variant types that have at
    least one option, so it contains a key if and only if some variant
    type has an option. *)
Theorem add_to_cart_selection {Button : Type}
    (product : Types.Product) (buttonRef : option Button)
    (s : option (gmap string string)) :
  reachable product s →
  match Types.variants product with
  | None => (addToCartClick product buttonRef s).2 = None
  | Some variants =>
      ∃ sel,
        (addToCartClick product buttonRef s).2 = Some sel
        ∧ (∀ key, is_Some (sel !! key)
                  ↔ ∃ opt opts, variants !! key = Some (opt :: opts))
        ∧ (sel ≠ ∅ ↔ ∃ key opt opts, variants !! key = Some (opt :: opts))
  end.
Proof.
  intros Hreach. apply reachable_wellFormed in Hreach.
  unfold wellFormedFor in Hreach. simpl.
  destruct (Types.variants product) as [variants|]; [|done].
  destruct Hreach as (sel & -> & Hdom & _).
  exists sel. split; [done|]. split; [done|]. split.
  - intros Hne. apply map_choose in Hne as (key & v & Hk).
    exists key. apply Hdom. by exists v.
  - intros (key & opt & opts & Hk) ->.
    assert (is_Some ((∅ : gmap string string) !! key)) as [v Hv]
      by (apply Hdom; eauto).
    by rewrite lookup_empty in Hv.
Qed.

End AddToCart.

Lemma add_to_cart_selection_witness :
  (QuickView.addToCartClick (productWithVariants (Some variantsAB))
     (Some tt)
     (QuickView.handleVariantChange
        (QuickView.initializeDefaults (productWithVariants (Some variantsAB)))
        "A" "a2")).2
  ≠ Some ∅.
Proof.
  destruct (add_to_cart_selection (productWithVariants (Some variantsAB))
              (Some tt)
              (QuickView.handleVariantChange
                 (QuickView.initializeDefaults
                    (productWithVariants (Some variantsAB)))
                 "A" "a2"))
    as (sel & Hsel & _ & Hne).
  - apply QuickView.reachable_change; [apply QuickView.reachable_init|].
    exists variantsAB, [plainOption "a1"; plainOption "a2"], (plainOption "a2").
    repeat split.
    apply list_elem_of_further, list_elem_of_here.
  - rewrite Hsel. intros [= ->]. apply (proj2 Hne); [|reflexivity].
    exists "A", (plainOption "a1"), [plainOption "a2"]. reflexivity.
Defined.

(** * Further properties *)

(** ** Product ids: how the markers are removed *)

(** [strip_prefix] succeeds exactly on the strings that start with the
    pattern, and returns what follows it. *)
Lemma strip_prefix_iff (pat s rest : string) :
  JS.strip_prefix pat s = Some rest ↔ s = pat ++ rest.
Proof.
  revert s. induction pat as [|p pat IH]; intros s; simpl.
  - split; [by intros [= ->]|by intros ->].
  - destruct s as [|c s]; [split; intros H; discriminate H|].
    destruct (Ascii.eqb_spec p c) as [->|Hne].
    + rewrite IH. split; [by intros ->|by intros [= ->]].
    + split; [intros H; discriminate H|]. intros [= <- _]. done.
Qed.

(** A string in which the pattern does not occur is returned
    unchanged. *)
Lemma replace_first_absent (pat s : string) :
  (∀ before after, s ≠ before ++ pat ++ after) →
  JS.replace_first pat s = s.
Proof.
  induction s as [|c s IH]; intros Habs.
  - simpl. destruct (JS.strip_prefix pat "") as [rest|] eqn:Hp; [|done].
    apply strip_prefix_iff in Hp. by destruct (Habs "" rest).
  - cbn [JS.replace_first].
    destruct (JS.strip_prefix pat (String c s)) as [rest|] eqn:Hp.
    + apply strip_prefix_iff in Hp. by destruct (Habs "" rest).
    + f_equal. apply IH. intros before after ->.
      by apply (Habs (String c before) after).
Qed.

(** When the pattern occurs, exactly its first occurrence is cut out:
    the text before it and the text after it are kept, later occurrences
    included. *)
Lemma replace_first_first_occurrence (pat before after : string) :
  (∀ before' after',
     before ++ pat ++ after = before' ++ pat ++ after' →
     (String.length before ≤ String.length before')%nat) →
  JS.replace_first pat (before ++ pat ++ after) = before ++ after.
Proof.
  induction before as [|c before IH]; intros Hfirst.
  - change ("" ++ pat ++ after) with (pat ++ after).
    destruct (pat ++ after) as [|x r] eqn:Hpa.
    + simpl. destruct pat; [|discriminate Hpa]. simpl in Hpa. by subst.
    + cbn [JS.replace_first]. rewrite <- Hpa.
      by rewrite (proj2 (strip_prefix_iff pat (pat ++ after) after) eq_refl).
  - change (String c before ++ pat ++ after)
      with (String c (before ++ pat ++ after)).
    cbn [JS.replace_first].
    destruct (JS.strip_prefix pat (String c (before ++ pat ++ after)))
      as [rest|] eqn:Hp.
    + apply strip_prefix_iff in Hp.
      specialize (Hfirst "" rest Hp). simpl in Hfirst. lia.
    + change (String c before ++ after) with (String c (before ++ after)).
      f_equal. apply IH. intros before' after' Heq.
      pose proof (Hfirst (String c before') after'
                    (f_equal (String c) Heq)) as Hle.
      simpl in Hle. lia.
Qed.

(** X1: a product id in which neither [wc-] nor [sim-] occurs is parsed
    as it is. *)
Theorem lineItem_unmarked_id (item : Types.CartItem) :
  (∀ before after,
     Types.id (Types.product item) ≠ before ++ "wc-" ++ after) →
  (∀ before after,
     Types.id (Types.product item) ≠ before ++ "sim-" ++ after) →
  LineItem.product_id (Checkout.lineItem item)
  = JS.parseInt (Types.id (Types.product item)).
Proof.
  intros Hwc Hsim. unfold Checkout.lineItem. cbn [LineItem.product_id].
  rewrite (replace_first_absent "wc-" _ Hwc).
  by rewrite (replace_first_absent "sim-" _ Hsim).
Qed.

(** X2: [wc-] is cut out of a product id wherever it first occurs, in
    the middle of the id as well as at its start, and only that once: a
    second [wc-] stays in what is parsed. *)
Theorem lineItem_first_marker_only (item : Types.CartItem)
    (before after : string) :
  Types.id (Types.product item) = before ++ "wc-" ++ after →
  (∀ before' after',
     before ++ "wc-" ++ after = before' ++ "wc-" ++ after' →
     (String.length before ≤ String.length before')%nat) →
  LineItem.product_id (Checkout.lineItem item)
  = JS.parseInt (JS.replace_first "sim-" (before ++ after)).
Proof.
  intros Hid Hfirst. unfold Checkout.lineItem. cbn [LineItem.product_id].
  by rewrite Hid, (replace_first_first_occurrence "wc-" before after Hfirst).
Qed.

Lemma lineItem_unmarked_id_witness :
  LineItem.product_id (Checkout.lineItem (itemWithId "55" 3)) = Some 55.
Proof.
  refine (lineItem_unmarked_id (itemWithId "55" 3) _ _).
  - intros before after H.
    destruct before as [|a [|b [|c before]]]; simpl in H; discriminate H.
  - intros before after H.
    destruct before as [|a [|b [|c before]]]; simpl in H; discriminate H.
Defined.

Lemma lineItem_first_marker_only_witness :
  LineItem.product_id (Checkout.lineItem (itemWithId "wc-wc-5" 1)) = None.
Proof.
  refine (lineItem_first_marker_only (itemWithId "wc-wc-5" 1) "" "wc-5" _ _).
  - reflexivity.
  - intros before' after' _. simpl. lia.
Defined.

(** ** Numbers: printing and parsing *)

#[local] Arguments JS.toDouble : simpl never.

Section NumberRoundTrip.

Lemma parse_digits_stop (c : ascii) (rest : string) (acc : option Z) :
  is_decimal_digit c = false →
  JS.parse_digits 10 (String c rest) acc = acc.
Proof.
  destruct c as [[] [] [] [] [] [] [] []]; intros H;
    try discriminate H; reflexivity.
Qed.

Lemma parse_digits_tail (tail : string) (acc : Z) :
  endsNumber tail = true → JS.parse_digits 10 tail (Some acc) = Some acc.
Proof.
  destruct tail as [|c rest]; [done|]. simpl endsNumber. intros H.
  apply parse_digits_stop.
  destruct (is_decimal_digit c); [discriminate H|done].
Qed.

Lemma parse_digits_uint (d : Decimal.uint) (tail : string) (acc : Z) :
  JS.parse_digits 10 (NilEmpty.string_of_uint d ++ tail) (Some acc)
  = JS.parse_digits 10 tail (Some (uint_value d acc)).
Proof.
  revert acc. induction d; intros acc; [done|..]; simpl; by rewrite IHd.
Qed.

Lemma parse_digits_uint_start (d : Decimal.uint) (tail : string) :
  d ≠ Decimal.Nil →
  JS.parse_digits 10 (NilEmpty.string_of_uint d ++ tail) None
  = JS.parse_digits 10 tail (Some (uint_value d 0)).
Proof.
  destruct d; [done|..]; intros _; simpl; by rewrite parse_digits_uint.
Qed.

Lemma trim_start_number_char (c : ascii) (r : string) :
  is_number_char c = true → JS.trim_start (String c r) = String c r.
Proof.
  intros Hc.
  destruct c as [[] [] [] [] [] [] [] []]; try discriminate Hc;
    destruct r as [|c2 [|c3 r3]]; reflexivity.
Qed.

(** Read from a decimal digit on, with no [0x] in front, [parseInt]
    reads in radix 10 from the first character. *)
Lemma parseInt_digit_start (c : ascii) (r : string) :
  is_decimal_digit c = true →
  startsHex (String c r) = false →
  JS.parseInt (String c r)
  = match JS.parse_digits 10 (String c r) None with
    | Some n => Some (JS.toDouble (1 * n))
    | None => None
    end.
Proof.
  intros Hc Hhex. unfold JS.parseInt.
  rewrite trim_start_number_char
    by (unfold is_number_char; by rewrite Hc).
  destruct c as [[] [] [] [] [] [] [] []]; try discriminate Hc;
    try reflexivity.
  destruct r as [|c2 r2]; [reflexivity|].
  destruct c2 as [[] [] [] [] [] [] [] []]; try discriminate Hhex;
    reflexivity.
Qed.

(** A minus sign in front of such a string negates what is read. *)
Lemma parseInt_minus_digit_start (c : ascii) (r : string) :
  is_decimal_digit c = true →
  startsHex (String c r) = false →
  JS.parseInt (String "-" (String c r))
  = match JS.parse_digits 10 (String c r) None with
    | Some n => Some (JS.toDouble (-1 * n))
    | None => None
    end.
Proof.
  intros Hc Hhex. unfold JS.parseInt.
  rewrite (trim_start_number_char "-" _ eq_refl).
  destruct c as [[] [] [] [] [] [] [] []]; try discriminate Hc;
    try reflexivity.
  destruct r as [|c2 r2]; [reflexivity|].
  destruct c2 as [[] [] [] [] [] [] [] []]; try discriminate Hhex;
    reflexivity.
Qed.

Lemma printed_uint_shape (d : Decimal.uint) (tail : string) :
  d ≠ Decimal.Nil → endsNumber tail = true →
  ∃ c r, NilEmpty.string_of_uint d ++ tail = String c r
         ∧ is_decimal_digit c = true
         ∧ startsHex (String c r) = false.
Proof.
  intros Hd Ht.
  destruct d as [|d|d|d|d|d|d|d|d|d|d]; [done|..];
    try (eexists _, _; split; [reflexivity|]; split; reflexivity).
  eexists _, _. split; [reflexivity|]. split; [reflexivity|].
  destruct d as [|d|d|d|d|d|d|d|d|d|d]; try reflexivity.
  destruct tail as [|c rest]; [reflexivity|]. simpl in Ht |- *.
  destruct c as [[] [] [] [] [] [] [] []]; try discriminate Ht;
    reflexivity.
Qed.

Lemma parseInt_unsigned (d : Decimal.uint) (tail : string) :
  d ≠ Decimal.Nil → endsNumber tail = true →
  JS.parseInt (NilEmpty.string_of_uint d ++ tail)
  = Some (JS.toDouble (uint_value d 0))
  ∧ JS.parseInt (String "-" (NilEmpty.string_of_uint d ++ tail))
    = Some (JS.toDouble (- uint_value d 0)).
Proof.
  intros Hd Ht.
  destruct (printed_uint_shape d tail Hd Ht) as (c & r & Heq & Hc & Hhex).
  pose proof (parse_digits_uint_start d tail Hd) as Hparse.
  rewrite parse_digits_tail in Hparse by done.
  rewrite Heq in Hparse |- *.
  rewrite parseInt_digit_start, parseInt_minus_digit_start by done.
  rewrite Hparse. split; do 2 f_equal; lia.
Qed.

Lemma string_append_empty (s : string) : s ++ "" = s.
Proof.
  induction s as [|c s IH]; [done|].
  change (String c s ++ "") with (String c (s ++ "")). by rewrite IH.
Qed.

(** The decimal digits of an integer up to 2^53, read back by
    [parseInt], give the integer, also when text that does not continue
    the number follows. *)
Lemma parseInt_printed (n : Z) (tail : string) :
  Z.abs n ≤ 2 ^ 53 →
  endsNumber tail = true →
  JS.parseInt (JS.decimal n ++ tail) = Some n.
Proof.
  intros Hn Ht. destruct n as [|p|p].
  - destruct (parseInt_unsigned (Decimal.D0 Decimal.Nil) tail) as [H _];
      [done..|].
    exact H.
  - destruct (decimal_pos p) as [-> _].
    destruct (parseInt_unsigned (Pos.to_uint p) tail) as [-> _];
      [apply DecimalPos.Unsigned.to_uint_nonnil|done|].
    by rewrite to_uint_value, toDouble_small.
  - destruct (decimal_pos p) as [_ ->].
    change (String "-" (NilEmpty.string_of_uint (Pos.to_uint p)) ++ tail)
      with (String "-" (NilEmpty.string_of_uint (Pos.to_uint p) ++ tail)).
    destruct (parseInt_unsigned (Pos.to_uint p) tail) as [_ ->];
      [apply DecimalPos.Unsigned.to_uint_nonnil|done|].
    by rewrite to_uint_value, toDouble_small.
Qed.

Lemma decimal_chars (n : Z) :
  string_forall is_number_char (JS.decimal n) = true.
Proof.
  assert (Hu : ∀ d, string_forall is_number_char
                      (NilEmpty.string_of_uint d) = true).
  { induction d; simpl; done. }
  assert (Hz : ∀ d, string_forall is_number_char
                      (NilZero.string_of_uint d) = true).
  { intros d. destruct d; [done|..]; apply Hu. }
  unfold JS.decimal.
  destruct n as [|p|p]; simpl; [done|apply Hz|apply Hz].
Qed.

(** X4: for every integer [n] up to 2^53 in magnitude (the integers
    that a JavaScript number holds exactly and prints in full), the
    product ids [n], [wc-n] and [sim-n] all give the line item the
    product id [n]. *)
Theorem lineItem_of_printed_id (item : Types.CartItem) (n : Z) :
  Z.abs n ≤ 2 ^ 53 →
  Types.id (Types.product item) = JS.number_to_string n
  ∨ Types.id (Types.product item) = "wc-" ++ JS.number_to_string n
  ∨ Types.id (Types.product item) = "sim-" ++ JS.number_to_string n →
  LineItem.product_id (Checkout.lineItem item) = Some n.
Proof.
  intros Hn Hid. rewrite (number_to_string_small n Hn) in Hid.
  unfold Checkout.lineItem. cbn [LineItem.product_id].
  pose proof (decimal_chars n) as Hchars.
  pose proof (replace_first_other_head is_number_char "w" "c-" _
                eq_refl Hchars) as Hwc.
  pose proof (replace_first_other_head is_number_char "s" "im-" _
                eq_refl Hchars) as Hsim.
  assert (Hparse : JS.parseInt (JS.decimal n) = Some n).
  { rewrite <- (string_append_empty (JS.decimal n)).
    by apply parseInt_printed. }
  destruct Hid as [->|[->| ->]].
  - by rewrite Hwc, Hsim.
  - change (JS.replace_first "wc-" ("wc-" ++ JS.decimal n))
      with (JS.decimal n).
    by rewrite Hsim.
  - change (JS.replace_first "wc-" ("sim-" ++ JS.decimal n))
      with ("sim-" ++ JS.replace_first "wc-" (JS.decimal n)).
    rewrite Hwc.
    change (JS.replace_first "sim-" ("sim-" ++ JS.decimal n))
      with (JS.decimal n).
    done.
Qed.

End NumberRoundTrip.

Lemma lineItem_of_printed_id_witness :
  LineItem.product_id (Checkout.lineItem (itemWithId "sim-7" 1)) = Some 7.
Proof.
  apply (lineItem_of_printed_id (itemWithId "sim-7" 1) 7).
  - vm_compute. discriminate.
  - right. right. reflexivity.
Defined.

(** ** Pricing: savers and added lines *)

Section PricingMore.

Import Checkout.



(** X7: one shipping-saver item anywhere in the cart waives the
    shipping fee for the whole cart, whatever its price and whatever the
    other lines are; the total is then the subtotal. *)
Theorem saver_item_waives_shipping
    (before after : list Types.CartItem) (item : Types.CartItem) :
  Types.isShippingSaver (Types.product item) = true →
  shippingCost (before ++ item :: after) = 0%Q
  ∧ (total (before ++ item :: after)
     == subtotal (before ++ item :: after))%Q.
Proof.
  intros Hs.
  assert (Hz : shippingCost (before ++ item :: after) = 0%Q).
  { apply shippingCost_free. left. exists item. split; [|done].
    apply elem_of_app. right. apply list_elem_of_here. }
  split; [done|]. unfold total. rewrite Hz. apply Qplus_0_r.
Qed.


End PricingMore.

Lemma saver_item_waives_shipping_witness :
  Checkout.shippingCost ([itemWithId "wc-101" 1] ++ saverItem :: []) = 0%Q.
Proof.
  apply (saver_item_waives_shipping [itemWithId "wc-101" 1] [] saverItem).
  reflexivity.
Defined.


Section FormAmounts.

Import Checkout.

Context {Currency : Type}.
Variable formatCurrency : Q → Currency → string.


End FormAmounts.


(** ** The form fields *)

Section FormFields.

Import Checkout.

Ltac by_field_name :=
  unfold readField, assignField in *;
  repeat match goal with
         | |- context [String.eqb ?a ?b] =>
             destruct (String.eqb_spec a b); subst; simpl in *
         | H : context [String.eqb ?a ?b] |- _ =>
             destruct (String.eqb_spec a b); subst; simpl in *
         end;
  try done; try congruence.

(** X10: typing into a named input sets that field and no other: the
    field reads back the typed value, every other field reads as before,
    and a name that is not a field leaves the six fields alone. *)
Theorem assignField_read (name value : string) (form : ShippingForm) :
  (is_Some (readField name form) →
   readField name (assignField name value form) = Some value)
  ∧ (∀ other, other ≠ name →
       readField other (assignField name value form) = readField other form)
  ∧ (readField name form = None → assignField name value form = form).
Proof.
  split; [|split].
  - intros [v Hv]. by_field_name.
  - intros other Hne. by_field_name.
  - intros Hnone. destruct form. by_field_name.
Qed.

(** X11: typing twice into the same input keeps the last value, and
    typing into two different inputs gives the same form in either
    order. *)
Theorem assignField_compose (name1 name2 value1 value2 : string)
    (form : ShippingForm) :
  assignField name1 value2 (assignField name1 value1 form)
  = assignField name1 value2 form
  ∧ (name1 ≠ name2 →
     assignField name2 value2 (assignField name1 value1 form)
     = assignField name1 value1 (assignField name2 value2 form)).
Proof.
  split.
  - destruct form. by_field_name.
  - intros Hne. destruct form. by_field_name.
Qed.

End FormFields.

(** ** The submit handler: what every run does and never does *)

Section HandlerMore.

Import Checkout.

Variable createOrder : Api.OrderData → Api.Outcome.

(** The three ways a run of the handler can end. *)
Lemma handler_cases (cartItems : list Types.CartItem) (st : State) :
  (missingRequired st = true
   ∧ handleFinalizeOrder createOrder cartItems st
     = (st, [PreventDefault;
             Alert "Por favor, completa los datos de contacto y envío."]))
  ∨ (missingRequired st = false
     ∧ ∃ orderId orderKey,
         handleFinalizeOrder createOrder cartItems st
         = (setIsProcessing true st,
            [PreventDefault; CreateOrder (orderData st cartItems);
             ConsoleLog "Pedido creado con éxito:" orderId;
             SetLocationHref (paymentUrl orderId orderKey)]))
  ∨ (missingRequired st = false
     ∧ ∃ effects,
         handleFinalizeOrder createOrder cartItems st
         = (setIsProcessing false st,
            PreventDefault :: CreateOrder (orderData st cartItems)
              :: effects)
         ∧ countEffects isAlert effects = 1%nat
         ∧ countEffects isNavigation effects = 0%nat
         ∧ countEffects isCreateOrder effects = 0%nat).
Proof.
  destruct (missingRequired st) eqn:Hm.
  - left. split; [done|]. by apply handler_blocked.
  - right. rewrite (handler_submits createOrder cartItems st Hm).
    unfold settle.
    destruct (createOrder (orderData st cartItems)) as [result|].
    + destruct (Api.truthy_id result) as [[orderId orderKey]|].
      * left. split; [done|]. by exists orderId, orderKey.
      * right. split; [done|]. eexists. split; [reflexivity|]. done.
    + right. split; [done|]. eexists. split; [reflexivity|]. done.
Qed.

(** X12: no run of the handler changes the email or a shipping field,
    whatever the outcome. *)
Theorem handler_keeps_form (cartItems : list Types.CartItem) (st : State) :
  email (handleFinalizeOrder createOrder cartItems st).1 = email st
  ∧ shipping (handleFinalizeOrder createOrder cartItems st).1 = shipping st.
Proof.
  destruct (handler_cases cartItems st)
    as [[_ ->]|[[_ (n & k & ->)]|[_ (effects & -> & _)]]]; done.
Qed.

(** X13: a run makes at most one order-creation call, none when the
    form is incomplete, and the request it sends is the projection of
    the form and the cart at that moment. *)
Theorem handler_single_request
    (cartItems : list Types.CartItem) (st : State) :
  List.filter isCreateOrder (handleFinalizeOrder createOrder cartItems st).2
  = if missingRequired st then []
    else [CreateOrder (orderData st cartItems)].
Proof.
  destruct (handler_cases cartItems st)
    as [[Hm ->]|[[Hm (n & k & ->)]|[Hm (effects & -> & _ & _ & Hc)]]];
    rewrite Hm; simpl; try done.
  f_equal. unfold countEffects in Hc.
  by apply length_zero_iff_nil in Hc.
Qed.

(** X14: every run ends in exactly one of two ways: it redirects once,
    without an alert, and leaves the processing flag on; or it does not
    redirect and tells the user with exactly one alert. *)
Theorem handler_redirects_or_alerts
    (cartItems : list Types.CartItem) (st : State) :
  let result := handleFinalizeOrder createOrder cartItems st in
  (countEffects isNavigation result.2 = 1%nat
   ∧ countEffects isAlert result.2 = 0%nat
   ∧ isProcessing result.1 = true)
  ∨ (countEffects isNavigation result.2 = 0%nat
     ∧ countEffects isAlert result.2 = 1%nat).
Proof.
  destruct (handler_cases cartItems st)
    as [[_ ->]|[[_ (n & k & ->)]|[_ (effects & -> & Ha & Hn & _)]]]; simpl.
  - by right.
  - by left.
  - right. unfold countEffects in *. simpl. done.
Qed.

(** X15: the handler does not look at the processing flag: called while
    a submission is in flight it performs the same effects, the
    order-creation call included; only the disabled button stands in
    the way of a second order. *)
Theorem handler_ignores_processing_flag
    (cartItems : list Types.CartItem) (st : State) (flag : bool) :
  (handleFinalizeOrder createOrder cartItems (setIsProcessing flag st)).2
  = (handleFinalizeOrder createOrder cartItems st).2.
Proof.
  unfold handleFinalizeOrder.
  change (missingRequired (setIsProcessing flag st))
    with (missingRequired st).
  destruct (missingRequired st); [done|].
  change (orderData (setIsProcessing flag st) cartItems)
    with (orderData st cartItems).
  unfold settle, softFailure, transportFailure.
  destruct (createOrder (orderData st cartItems)) as [result|]; [|done].
  by destruct (Api.truthy_id result) as [[n k]|].
Qed.

(** X16: when the order is created the processing flag stays on, so
    the pay button stays disabled and keeps its waiting label until the
    browser leaves the page. *)
Theorem success_keeps_button_disabled
    (cartItems : list Types.CartItem) (st : State)
    (result : option Api.OrderResponse) (orderId : Z)
    (orderKey : option string) :
  missingRequired st = false →
  createOrder (orderData st cartItems) = Api.Resolved result →
  Api.truthy_id result = Some (orderId, orderKey) →
  let st' := (handleFinalizeOrder createOrder cartItems st).1 in
  isProcessing st' = true
  ∧ ∀ (Currency : Type) (formatCurrency : Q → Currency → string)
      (currency : Currency) item rest,
      ∃ totalShown shippingShown,
        render formatCurrency (item :: rest) currency st'
        = CheckoutFormView totalShown (S (length rest)) shippingShown
            (email st) (shipping st)
            {| label := "Conectando con el Banco..."; disabled := true;
               onClick := SubmitForm |}.
Proof.
  intros Hm Hcall Hid st'. subst st'.
  rewrite (handler_submits createOrder cartItems st Hm), Hcall.
  unfold settle. rewrite Hid. simpl. split; [done|].
  intros. unfold render. simpl. eauto.
Qed.

End HandlerMore.

Section OrderRequestMore.

Import Checkout.

Lemma or_string_nonempty (a b : string) : b ≠ "" → JS.or_string a b ≠ "".
Proof. intros Hb. unfold JS.or_string. by destruct a. Qed.

(** X17: in every order request the shipping block repeats the billing
    block's name, address, city, postal code and country, the last name
    is never empty in either block, and the billing block carries the
    email and the phone of the form. *)
Theorem order_request_blocks_agree
    (st : State) (cartItems : list Types.CartItem) :
  let billing := Api.billing (orderData st cartItems) in
  let shippingBlock := Api.shipping (orderData st cartItems) in
  Shipping.first_name shippingBlock = Billing.first_name billing
  ∧ Shipping.last_name shippingBlock = Billing.last_name billing
  ∧ Shipping.address_1 shippingBlock = Billing.address_1 billing
  ∧ Shipping.city shippingBlock = Billing.city billing
  ∧ Shipping.postcode shippingBlock = Billing.postcode billing
  ∧ Shipping.country shippingBlock = Billing.country billing
  ∧ Billing.last_name billing ≠ ""
  ∧ Billing.email billing = email st
  ∧ Billing.phone billing = phone (shipping st).
Proof.
  simpl. repeat (split; [reflexivity|]).
  split; [|done]. by apply or_string_nonempty.
Qed.

(** X18: a product id that does not parse is not caught: with a
    complete form the order is still sent, and the line item of that
    product carries [NaN] in place of the product id. *)
Theorem unparsable_id_is_sent (createOrder : Api.OrderData → Api.Outcome)
    (cartItems : list Types.CartItem) (st : State) (item : Types.CartItem) :
  missingRequired st = false →
  item ∈ cartItems →
  JS.parseInt
    (JS.replace_first "sim-"
       (JS.replace_first "wc-" (Types.id (Types.product item)))) = None →
  ∃ request,
    CreateOrder request ∈ (handleFinalizeOrder createOrder cartItems st).2
    ∧ {| LineItem.product_id := None;
         LineItem.quantity := Types.quantity item |}
      ∈ Api.line_items request.
Proof.
  intros Hm Hin Hnan. exists (orderData st cartItems). split.
  - rewrite (handler_submits createOrder cartItems st Hm). simpl.
    apply list_elem_of_further, list_elem_of_here.
  - simpl. apply list_elem_of_fmap. exists item. split; [|done].
    unfold lineItem. by rewrite Hnan.
Qed.

End OrderRequestMore.

Lemma success_keeps_button_disabled_witness :
  Checkout.isProcessing
    (Checkout.handleFinalizeOrder resolvesWithOrder
       [itemWithId "wc-101" 2] filledState).1 = true.
Proof.
  apply (success_keeps_button_disabled resolvesWithOrder
           [itemWithId "wc-101" 2] filledState
           (Some {| Api.id := Some 123; Api.order_key := Some "abc" |})
           123 (Some "abc")); reflexivity.
Defined.

Lemma unparsable_id_is_sent_witness :
  ∃ request,
    Checkout.CreateOrder request
      ∈ (Checkout.handleFinalizeOrder rejects
           [itemWithId "gift" 1] filledState).2
    ∧ {| LineItem.product_id := None; LineItem.quantity := 1 |}
      ∈ Api.line_items request.
Proof.
  apply (unparsable_id_is_sent rejects [itemWithId "gift" 1] filledState
           (itemWithId "gift" 1)).
  - reflexivity.
  - apply list_elem_of_here.
  - reflexivity.
Defined.

(** ** Sessions on the checkout form *)

Section Sessions.

Import Checkout.

Variable cartItems : list Types.CartItem.

Lemma run_cons (event : Event) (events : list Event) (st : State) :
  run cartItems (event :: events) st
  = ((run cartItems events (step cartItems event st).1).1,
     ((step cartItems event st).2
      ++ (run cartItems events (step cartItems event st).1).2)%list).
Proof.
  simpl. destruct (step cartItems event st) as [st1 effects1]. simpl.
  by destruct (run cartItems events st1).
Qed.

Lemma navigates_app (effects1 effects2 : list Effect) :
  navigates (effects1 ++ effects2)%list
  ↔ navigates effects1 ∨ navigates effects2.
Proof.
  unfold navigates. split.
  - intros [url [H|H]%elem_of_app]; eauto.
  - intros [[url H]|[url H]]; exists url; apply elem_of_app; eauto.
Qed.

Lemma callsCreateOrder_app (effects1 effects2 : list Effect) :
  callsCreateOrder (effects1 ++ effects2)%list
  ↔ callsCreateOrder effects1 ∨ callsCreateOrder effects2.
Proof.
  unfold callsCreateOrder. split.
  - intros [request [H|H]%elem_of_app]; eauto.
  - intros [[request H]|[request H]]; exists request; apply elem_of_app;
      eauto.
Qed.

Lemma run_flag (events : list Event) (st : State) :
  isProcessing (run cartItems events st).1 = true →
  isProcessing st = true ∨ navigates (run cartItems events st).2.
Proof.
  revert st. induction events as [|event events IH]; intros st.
  - simpl. by left.
  - rewrite run_cons. cbn [fst snd]. intros Hfinal.
    rewrite navigates_app.
    destruct (IH _ Hfinal) as [Hflag|Hnav]; [|by right; right].
    destruct event as [value|name value|createOrder]; simpl in Hflag.
    + by left.
    + by left.
    + cbn [step].
      destruct (handler_cases createOrder cartItems st)
        as [[_ Heq]|[[_ (n & k & Heq)]|[_ (effects & Heq & _)]]];
        rewrite Heq in Hflag |- *; simpl in Hflag.
      * by left.
      * right. left. exists (paymentUrl n k). simpl.
        do 3 apply list_elem_of_further. apply list_elem_of_here.
      * discriminate Hflag.
Qed.

(** X19: in a session that starts with the pay button enabled, the
    button is never left disabled without a redirect having been issued:
    every submission that does not redirect hands the form back. *)
Theorem session_disabled_only_after_redirect
    (events : list Event) (st : State) :
  isProcessing st = false →
  isProcessing (run cartItems events st).1 = true →
  navigates (run cartItems events st).2.
Proof.
  intros Hstart Hfinal.
  destruct (run_flag events st Hfinal) as [Hflag|Hnav]; [|done].
  congruence.
Qed.

Lemma run_blocked (P : State → Prop) (events : list Event) (st : State) :
  (∀ st0, P st0 → missingRequired st0 = true) →
  (∀ value st0, EmailChanged value ∈ events → P st0 →
                P (setEmail value st0)) →
  (∀ name value st0, InputChanged name value ∈ events → P st0 →
                     P (handleInputChange name value st0)) →
  P st →
  ¬ callsCreateOrder (run cartItems events st).2.
Proof.
  intros Hblocks. revert st.
  induction events as [|event events IH]; intros st Hemail Hinput HP.
  - simpl. intros [request Hin]. by apply elem_of_nil in Hin.
  - rewrite run_cons. cbn [snd]. rewrite callsCreateOrder_app.
    assert (Hrest : ∀ st1, P st1 →
              ¬ callsCreateOrder (run cartItems events st1).2).
    { intros st1 HP1. apply IH; [| |done].
      - intros value st0 Hin. apply Hemail. by apply list_elem_of_further.
      - intros name value st0 Hin. apply Hinput.
        by apply list_elem_of_further. }
    destruct event as [value|name value|createOrder]; cbn [step fst snd].
    + intros [[request Hin]|Hcall]; [by apply elem_of_nil in Hin|].
      revert Hcall. apply Hrest, Hemail; [apply list_elem_of_here|done].
    + intros [[request Hin]|Hcall]; [by apply elem_of_nil in Hin|].
      revert Hcall. apply Hrest, Hinput; [apply list_elem_of_here|done].
    + rewrite (handler_blocked createOrder cartItems st (Hblocks st HP)).
      cbn [fst snd].
      intros [[request Hin]|Hcall]; [no_such_effect Hin|].
      revert Hcall. by apply Hrest.
Qed.

(** X20: starting from the empty form, a session in which the user
    never types into the email, the first name, the address or the phone
    input never reaches the order-creation call, however often the form
    is submitted. *)
Theorem session_needs_required_fields (events : list Event) :
  leavesRequiredFieldEmpty events →
  ¬ callsCreateOrder (run cartItems events initialState).2.
Proof.
  intros [Hnever|[Hnever|[Hnever|Hnever]]].
  - apply (run_blocked (fun st => email st = "")); [| | |done].
    + intros st0 H. unfold missingRequired. by rewrite H.
    + intros value st0 Hin. by destruct (Hnever value).
    + done.
  - apply (run_blocked (fun st => firstName (shipping st) = ""));
      [| | |done].
    + intros st0 H. unfold missingRequired. rewrite H. simpl.
      by rewrite orb_true_r.
    + done.
    + intros name value st0 Hin H. simpl.
      destruct (String.eqb_spec name "firstName") as [->|_]; [|done].
      by destruct (Hnever value).
  - apply (run_blocked (fun st => address (shipping st) = ""));
      [| | |done].
    + intros st0 H. unfold missingRequired. rewrite H. simpl.
      by rewrite !orb_true_r.
    + done.
    + intros name value st0 Hin H. simpl.
      destruct (String.eqb_spec name "address") as [->|_]; [|done].
      by destruct (Hnever value).
  - apply (run_blocked (fun st => phone (shipping st) = ""));
      [| | |done].
    + intros st0 H. unfold missingRequired. rewrite H. simpl.
      by rewrite !orb_true_r.
    + done.
    + intros name value st0 Hin H. simpl.
      destruct (String.eqb_spec name "phone") as [->|_]; [|done].
      by destruct (Hnever value).
Qed.

End Sessions.

Lemma session_disabled_only_after_redirect_witness :
  navigates
    (Checkout.run [itemWithId "wc-101" 2] sessionComplete
       Checkout.initialState).2.
Proof.
  apply (session_disabled_only_after_redirect [itemWithId "wc-101" 2]
           sessionComplete Checkout.initialState); reflexivity.
Defined.

Lemma session_needs_required_fields_witness :
  ¬ callsCreateOrder
      (Checkout.run [itemWithId "wc-101" 2] sessionWithoutPhone
         Checkout.initialState).2.
Proof.
  apply (session_needs_required_fields [itemWithId "wc-101" 2]
           sessionWithoutPhone).
  right. right. right. intros value Hin.
  unfold sessionWithoutPhone in Hin. no_such_effect Hin.
Defined.

(** ** Quick view: defaults, changes and what is rendered *)

Section QuickViewMore.

Import QuickView.

Implicit Types (variants : gmap string (list Types.VariantOption))
  (sel : gmap string string) (key type value : string).

(** X21: the defaults do not depend on how the keys of the variant map
    are enumerated: any list that holds exactly the keys of the map, in
    any order, gives the same selection. *)
Theorem defaults_order_independent variants (keys : list string) :
  (∀ key, key ∈ keys ↔ is_Some (variants !! key)) →
  defaultsFrom variants keys = defaultsFrom variants (objectKeys variants).
Proof.
  intros Hkeys. apply map_eq. intros key.
  rewrite !defaultsFrom_lookup.
  destruct (decide (key ∈ keys)) as [Hin|Hnin];
    destruct (decide (key ∈ objectKeys variants)) as [Hin'|Hnin'];
    try done.
  - exfalso. apply Hnin', elem_of_objectKeys, Hkeys, Hin.
  - exfalso. apply Hnin, Hkeys, elem_of_objectKeys, Hin'.
Qed.

(** X22: choosing twice for the same variant type keeps the last
    choice, and choices for two different types give the same selection
    in either order. *)
Theorem variant_changes_compose (prev : option (gmap string string))
    (type1 type2 value1 value2 : string) :
  handleVariantChange (handleVariantChange prev type1 value1) type1 value2
  = handleVariantChange prev type1 value2
  ∧ (type1 ≠ type2 →
     handleVariantChange (handleVariantChange prev type1 value1)
       type2 value2
     = handleVariantChange (handleVariantChange prev type2 value2)
         type1 value1).
Proof.
  unfold handleVariantChange. simpl. split.
  - f_equal. apply insert_insert_eq.
  - intros Hne. f_equal. by apply insert_insert_ne.
Qed.

(** X23: whatever the user clicked, every value held in the selection is
    the value of an option the product offers for that variant type. *)
Theorem selection_values_offered (product : Types.Product)
    (s : option (gmap string string)) (type value : string) :
  reachable product s →
  selected s type = Some value →
  offered product type value.
Proof.
  intros Hreach Hsel. apply reachable_wellFormed in Hreach.
  unfold wellFormedFor, offered in *.
  destruct (Types.variants product) as [variants|].
  - destruct Hreach as (sel & -> & _ & Hvals). simpl in Hsel.
    destruct (Hvals type value Hsel) as (opts & opt & Hk & Hin & Hv).
    by exists variants, opts, opt.
  - subst s. discriminate Hsel.
Qed.

Lemma elem_of_typeButtons (s : option (gmap string string)) type
    (opts : list Types.VariantOption) (button : OptionButton) :
  button ∈ typeButtons s type opts
  ↔ ∃ opt, opt ∈ opts
           ∧ button = {| buttonType := type;
                         buttonValue := Types.value opt;
                         swatch := Types.colorCode opt;
                         highlighted :=
                           bool_decide (selected s type
                                        = Some (Types.value opt)) |}.
Proof.
  unfold typeButtons. rewrite list_elem_of_fmap. split.
  - intros (opt & -> & Hin). by exists opt.
  - intros (opt & Hin & ->). by exists opt.
Qed.

Lemma elem_of_optionButtons (product : Types.Product)
    (s : option (gmap string string)) (button : OptionButton) :
  button ∈ optionButtons product s
  ↔ ∃ variants opts,
      Types.variants product = Some variants
      ∧ variants !! buttonType button = Some opts
      ∧ button ∈ typeButtons s (buttonType button) opts.
Proof.
  unfold optionButtons.
  destruct (Types.variants product) as [variants|].
  - rewrite list_elem_of_In, in_flat_map. split.
    + intros (type & Hkey & Hin).
      apply list_elem_of_In, elem_of_objectKeys in Hkey as [opts Hopts].
      rewrite Hopts in Hin. simpl in Hin. apply list_elem_of_In in Hin.
      assert (buttonType button = type) as ->.
      { apply elem_of_typeButtons in Hin as (opt & _ & ->). done. }
      by exists variants, opts.
    + intros (variants' & opts & [= <-] & Hopts & Hin).
      exists (buttonType button). split.
      * apply list_elem_of_In, elem_of_objectKeys. by exists opts.
      * rewrite Hopts. simpl. by apply list_elem_of_In.
  - split; [by intros ?%elem_of_nil|].
    by intros (variants & opts & [=] & _).
Qed.

(** X24: the rendered option buttons are exactly the options the
    product offers: there is a button for a type and a value if and only
    if the value belongs to an option of that type, and there is none
    when the product has no variant map. *)
Theorem option_buttons_offered (product : Types.Product)
    (s : option (gmap string string)) (type value : string) :
  (∃ button, button ∈ optionButtons product s
             ∧ buttonType button = type ∧ buttonValue button = value)
  ↔ offered product type value.
Proof.
  unfold offered. split.
  - intros (button & Hin & <- & <-).
    apply elem_of_optionButtons in Hin as (variants & opts & Hv & Hk & Hin).
    apply elem_of_typeButtons in Hin as (opt & Hopt & ->).
    by exists variants, opts, opt.
  - intros (variants & opts & opt & Hv & Hk & Hopt & <-).
    exists {| buttonType := type;
              buttonValue := Types.value opt;
              swatch := Types.colorCode opt;
              highlighted :=
                bool_decide (selected s type = Some (Types.value opt)) |}.
    split; [|split; reflexivity].
    apply elem_of_optionButtons. exists variants, opts.
    split; [done|]. split; [done|].
    apply elem_of_typeButtons. by exists opt.
Qed.

(** X25: once the defaults are set, and after any clicks, every variant
    type that has options shows at least one highlighted button. *)
Theorem every_row_highlighted (product : Types.Product)
    (s : option (gmap string string)) variants type
    (opt : Types.VariantOption) (opts : list Types.VariantOption) :
  reachable product s →
  Types.variants product = Some variants →
  variants !! type = Some (opt :: opts) →
  ∃ button, button ∈ optionButtons product s
            ∧ buttonType button = type ∧ highlighted button = true.
Proof.
  intros Hreach Hv Hk. apply reachable_wellFormed in Hreach.
  unfold wellFormedFor in Hreach. rewrite Hv in Hreach.
  destruct Hreach as (sel & -> & Hdom & Hvals).
  destruct (proj2 (Hdom type)) as [value Hvalue]; [eauto|].
  destruct (Hvals type value Hvalue) as (opts' & opt' & Hk' & Hin & Hval).
  exists {| buttonType := type;
            buttonValue := Types.value opt';
            swatch := Types.colorCode opt';
            highlighted :=
              bool_decide (selected (Some sel) type
                           = Some (Types.value opt')) |}.
  split; [|split; [reflexivity|]].
  - apply elem_of_optionButtons. exists variants, opts'. simpl.
    split; [done|]. split; [done|].
    apply elem_of_typeButtons. by exists opt'.
  - simpl. apply bool_decide_eq_true. by rewrite Hval.
Qed.

(** X26: the struck-through regular price appears exactly when a
    non-zero regular price above the price is recorded, and it shows
    that regular price; a regular price of 0 puts the text 0 after the
    price; in every other case nothing is added. *)
Theorem regular_price_slot (product : Types.Product) :
  (∀ amount,
     regularPriceSlot product = StruckThrough amount
     ↔ Types.regularPrice product = Some amount
       ∧ ¬ (amount == 0)%Q ∧ (Types.price product < amount)%Q)
  ∧ (regularPriceSlot product = ZeroShown
     ↔ ∃ regular, Types.regularPrice product = Some regular
                  ∧ (regular == 0)%Q).
Proof.
  unfold regularPriceSlot.
  destruct (Types.regularPrice product) as [regular|].
  - destruct (Qeq_bool regular 0) eqn:Hz.
    + apply Qeq_bool_iff in Hz. split.
      * intros amount. split; [done|]. intros ([= <-] & Hnz & _). done.
      * split; [eauto|done].
    + apply Qeq_bool_neq in Hz.
      destruct (Qle_bool regular (Types.price product)) eqn:Hle; simpl.
      * apply Qle_bool_iff in Hle. split.
        -- intros amount. split; [done|]. intros ([= <-] & _ & Hlt).
           by apply Qle_not_lt in Hle.
        -- split; [done|]. intros (r & [= <-] & Hr). done.
      * assert (Hlt : (Types.price product < regular)%Q).
        { apply Qnot_le_lt. intros H. apply Qle_bool_iff in H. congruence. }
        split.
        -- intros amount. split.
           ++ intros [= <-]. done.
           ++ by intros ([= <-] & _ & _).
        -- split; [done|]. intros (r & [= <-] & Hr). done.
  - split.
    + intros amount. split; [done|]. by intros ([=] & _).
    + split; [done|]. by intros (r & [=] & _).
Qed.

End QuickViewMore.

Lemma defaults_order_independent_witness :
  QuickView.defaultsFrom variantsAB ["B"; "A"; "B"]
  = QuickView.defaultsFrom variantsAB (QuickView.objectKeys variantsAB).
Proof.
  apply (defaults_order_independent variantsAB ["B"; "A"; "B"]).
  intros key. unfold variantsAB.
  rewrite !lookup_insert_is_Some', !elem_of_cons, elem_of_nil.
  pose proof (lookup_empty_is_Some (M := gmap string)
                (A := list Types.VariantOption) key) as Hempty.
  split.
  - intros [->|[->|[->|[]]]]; auto.
  - intros [<-|[<-|H]]; auto; by destruct Hempty.
Defined.

Lemma selection_values_offered_witness :
  QuickView.offered (productWithVariants (Some variantsAB)) "A" "a2".
Proof.
  apply (selection_values_offered (productWithVariants (Some variantsAB))
           (QuickView.handleVariantChange
              (QuickView.initializeDefaults
                 (productWithVariants (Some variantsAB)))
              "A" "a2")
           "A" "a2").
  - apply QuickView.reachable_change; [apply QuickView.reachable_init|].
    exists variantsAB, [plainOption "a1"; plainOption "a2"],
      (plainOption "a2").
    repeat split. apply list_elem_of_further, list_elem_of_here.
  - reflexivity.
Defined.

Lemma every_row_highlighted_witness :
  ∃ button,
    button ∈ QuickView.optionButtons (productWithVariants (Some variantsAB))
               (QuickView.initializeDefaults
                  (productWithVariants (Some variantsAB)))
    ∧ QuickView.buttonType button = "B"
    ∧ QuickView.highlighted button = true.
Proof.
  apply (every_row_highlighted (productWithVariants (Some variantsAB))
           (QuickView.initializeDefaults
              (productWithVariants (Some variantsAB)))
           variantsAB "B" (plainOption "b1") []).
  - apply QuickView.reachable_init.
  - reflexivity.
  - reflexivity.
Defined.

(** ** Quick view: the Escape listener *)

Section EscapeListener.

Import QuickView.

Context {Callback : Type}.

Implicit Types (h : Listener Callback) (listeners : list (Listener Callback))
  (onClose : Callback).

Lemma filter_others h listeners :
  existsb (sameListener h) listeners = false →
  List.filter (fun l => negb (sameListener h l)) listeners = listeners.
Proof.
  induction listeners as [|l listeners IH]; simpl; [done|].
  intros [Hl Hrest]%orb_false_iff. rewrite Hl. simpl. by rewrite IH.
Qed.

(** X27: what the effect registers, its cleanup takes away: after the
    closure of an effect run was added and removed, the listeners of the
    document are those that were there before. *)
Theorem escape_listener_released h listeners :
  existsb (sameListener h) listeners = false →
  removeEventListener h (addEventListener h listeners) = listeners.
Proof.
  intros Hfresh. unfold addEventListener, removeEventListener.
  rewrite Hfresh, List.filter_app, (filter_others h listeners Hfresh).
  simpl. unfold sameListener at 1. rewrite Nat.eqb_refl. simpl.
  apply app_nil_r.
Qed.

(** X28: while the listener is registered, an Escape key press calls
    [onClose] exactly once, after the listeners registered before, and a
    press of any other key calls nothing of this component. *)
Theorem escape_calls_onClose_once (fresh : nat) onClose listeners :
  existsb (sameListener (escapeListener fresh onClose)) listeners = false →
  dispatchKeyDown (addEventListener (escapeListener fresh onClose) listeners)
    "Escape"
  = (dispatchKeyDown listeners "Escape" ++ [onClose])%list
  ∧ ∀ key, key ≠ "Escape" →
      dispatchKeyDown
        (addEventListener (escapeListener fresh onClose) listeners) key
      = dispatchKeyDown listeners key.
Proof.
  intros Hfresh. unfold addEventListener, dispatchKeyDown.
  rewrite Hfresh. split.
  - by rewrite flat_map_app.
  - intros key Hkey. rewrite flat_map_app. simpl.
    unfold handleKeyDown.
    destruct (String.eqb_spec key "Escape") as [->|_]; [done|].
    simpl. apply app_nil_r.
Qed.

End EscapeListener.

Lemma escape_listener_released_witness :
  QuickView.removeEventListener (QuickView.escapeListener 2 "close")
    (QuickView.addEventListener (QuickView.escapeListener 2 "close")
       [foreignListener])
  = [foreignListener].
Proof.
  apply (escape_listener_released (QuickView.escapeListener 2 "close")
           [foreignListener]).
  reflexivity.
Defined.

Lemma escape_calls_onClose_once_witness :
  QuickView.dispatchKeyDown
    (QuickView.addEventListener (QuickView.escapeListener 2 "close")
       [foreignListener])
    "Escape"
  = ["menu:Escape"; "close"].
Proof.
  apply (escape_calls_onClose_once 2 "close" [foreignListener]).
  reflexivity.
Defined.

